(** * auth-flow-sim: the in-memory simulator engine

    A shallow embedding of [AuthFlowSimulator] (simulators/AuthFlowSimulator.ts),
    of the helpers it calls (utils/helpers.ts) and of the records of
    types/index.ts, followed by the properties of the engine.

    Conventions of the embedding:
    - a JavaScript array is a heap cell: the simulator state holds array
      references, [push]/[splice] update the cell in place, [filter] and the
      spread [[...a]] allocate a new cell;
    - [Math.random] and the system clock are oracles of the runtime, read
      through a cursor: the k-th reading is whatever the oracle gives;
    - a method is a computation over the simulator object and the runtime
      that either returns a value or throws;
    - the elements of the arrays (users, sessions, events) are values: the
      engine never mutates them;
    - a string is a sequence of code units below 256; a JavaScript string
      with a higher code unit, a surrogate among them, is not a string of
      the embedding;
    - the console is the list of the [console.log] calls, each with its two
      arguments. *)

From Stdlib Require Import ZArith String Ascii List Bool Lia.
From stdpp Require Import base gmap strings list.

Open Scope Z_scope.

(** ** JavaScript values reaching the public operations

    types/index.ts declares the credential fields as [string]; at run time a
    caller can still leave one out, so the fields that the engine reads from
    caller-built objects are embedded as a string, [undefined] or [null]. *)

Inductive jsval : Type :=
  | JUndefined
  | JNull
  | JString (s : string).

(** [a === v] where [a] is known to be a string. *)
Definition strict_eq (a : string) (v : jsval) : bool :=
  match v with
  | JString b => String.eqb a b
  | _ => false
  end.

Inductive Throwable : Type :=
  | TypeError (msg : string)
  | URIError (msg : string).

(** ** types/index.ts *)

Record User : Type := mkUser {
  user_id : string;
  user_email : string;
  user_name : string;
  user_avatar : option string;
  emailVerified : bool;
  twoFactorEnabled : bool;
  user_createdAt : Z;
  lastLoginAt : option Z
}.

Inductive DeviceType : Type := mobile | desktop | tablet.

Record DeviceInfo : Type := mkDeviceInfo {
  userAgent : string;
  ipAddress : string;
  deviceType : DeviceType;
  browser : option string;
  os : option string
}.

Record AuthSession : Type := mkSession {
  session_id : string;
  session_userId : string;
  token : string;
  refreshToken : option string;
  expiresAt : Z;
  session_createdAt : Z;
  deviceInfo : option DeviceInfo
}.

Record AuthFlowConfig : Type := mkConfig {
  enable2FA : bool;
  enablePasswordReset : bool;
  enableOAuth : bool;
  sessionTimeout : Z;
  maxLoginAttempts : Z;
  lockoutDuration : Z
}.

(** [Partial<AuthFlowConfig>] *)
Record PartialConfig : Type := mkPartialConfig {
  p_enable2FA : option bool;
  p_enablePasswordReset : option bool;
  p_enableOAuth : option bool;
  p_sessionTimeout : option Z;
  p_maxLoginAttempts : option Z;
  p_lockoutDuration : option Z
}.

Record LoginCredentials : Type := mkCredentials {
  cred_email : jsval;
  cred_password : jsval;
  rememberMe : option bool
}.

Inductive TwoFactorMethod : Type := sms | by_email | totp | app.

Record TwoFactorCode : Type := mkCode {
  code : string;
  method : TwoFactorMethod
}.

Record PasswordResetRequest : Type := mkResetRequest {
  req_email : jsval;
  redirectUrl : option string
}.

Record PasswordResetConfirm : Type := mkResetConfirm {
  confirm_token : string;
  newPassword : string
}.

Record OAuthCallback : Type := mkCallback {
  cb_code : string;
  cb_state : string;
  provider : string
}.

Record AuthResult : Type := mkResult {
  success : bool;
  res_user : option User;
  res_session : option AuthSession;
  res_error : option string;
  requires2FA : option bool;
  requiresPasswordReset : option bool
}.

Inductive AuthEventType : Type :=
  | login_attempt
  | login_success
  | login_failure
  | twofa_required
  | twofa_success
  | twofa_failure
  | password_reset_requested
  | password_reset_completed
  | oauth_initiated
  | oauth_callback
  | session_created
  | session_expired
  | logout.

Definition AuthEventType_name (t : AuthEventType) : string :=
  match t with
  | login_attempt => "login-attempt"
  | login_success => "login-success"
  | login_failure => "login-failure"
  | twofa_required => "2fa-required"
  | twofa_success => "2fa-success"
  | twofa_failure => "2fa-failure"
  | password_reset_requested => "password-reset-requested"
  | password_reset_completed => "password-reset-completed"
  | oauth_initiated => "oauth-initiated"
  | oauth_callback => "oauth-callback"
  | session_created => "session-created"
  | session_expired => "session-expired"
  | logout => "logout"
  end.

(** [data] is a [Record<string, unknown>]: the engine only ever stores
    strings and credential fields in it, in the order the literal lists
    them. *)
Record AuthEvent : Type := mkEvent {
  ev_type : AuthEventType;
  timestamp : Z;
  ev_userId : option string;
  ev_sessionId : option string;
  ev_data : list (string * jsval);
  ev_success : bool;
  ev_error : option string
}.

(** The arrays of [SimulatorState] are held by reference. *)
Definition loc : Type := nat.

Record SimulatorState : Type := mkState {
  users : loc;
  sessions : loc;
  events : loc;
  config : AuthFlowConfig;
  isRunning : bool
}.

(** [SimulatorOptions]; [mockUsers] is the caller's array. *)
Record SimulatorOptions : Type := mkOptions {
  opt_config : option PartialConfig;
  mockUsers : option loc;
  enableLogging : option bool;
  delayMs : option Z
}.

(** ** The runtime: array store, oracles, console *)

(** The second argument of a [console.log] call of the simulator,
    [data || ""]: the data object when there is one, else the empty
    string. *)
Inductive LogArgument : Type :=
  | LogData (data : list (string * jsval))
  | LogNothing.

(** One call [console.log(line, argument)]. *)
Record ConsoleCall : Type := mkCall {
  line : string;
  argument : LogArgument
}.

Record Runtime : Type := mkRuntime {
  userArrays : gmap loc (list User);
  sessionArrays : gmap loc (list AuthSession);
  eventArrays : gmap loc (list AuthEvent);
  nextLoc : loc;
  (** [entropy k]: what the k-th [Math.random().toString(36).substring(2)]
      evaluates to *)
  entropy : nat -> string;
  drawn : nat;
  (** [clock k]: the k-th reading of the system clock, in milliseconds *)
  clock : nat -> Z;
  ticks : nat;
  console : list ConsoleCall
}.

(** The simulator object: its two private fields. *)
Record Simulator : Type := mkSimulator {
  state : SimulatorState;
  options : SimulatorOptions
}.

Record Cfg : Type := mkCfg {
  this : Simulator;
  rt : Runtime
}.

(** ** Computations *)

Inductive Completion (A : Type) : Type :=
  | Normal (a : A)
  | Throw (e : Throwable).
Arguments Normal {A} a.
Arguments Throw {A} e.

Definition M (A : Type) : Type := Cfg -> Completion A * Cfg.

Definition ret {A} (a : A) : M A := fun c => (Normal a, c).

Definition throw {A} (e : Throwable) : M A := fun c => (Throw e, c).

Definition bind {A B} (m : M A) (k : A -> M B) : M B :=
  fun c =>
    match m c with
    | (Normal a, c') => k a c'
    | (Throw e, c') => (Throw e, c')
    end.

Notation "'let*' x ':=' m 'in' k" := (bind m (fun x => k))
  (at level 10, x pattern, m at level 100, k at level 200).

Definition gets {A} (f : Cfg -> A) : M A := fun c => (Normal (f c), c).

Definition modify (f : Cfg -> Cfg) : M unit := fun c => (Normal tt, f c).

(** *** Runtime updates *)

Definition with_rt (f : Runtime -> Runtime) (c : Cfg) : Cfg :=
  {| this := this c; rt := f (rt c) |}.

Definition with_state (f : SimulatorState -> SimulatorState) (c : Cfg) : Cfg :=
  {| this := {| state := f (state (this c)); options := options (this c) |};
     rt := rt c |}.

Definition set_userArrays (h : gmap loc (list User)) (r : Runtime) : Runtime :=
  {| userArrays := h; sessionArrays := sessionArrays r;
     eventArrays := eventArrays r; nextLoc := nextLoc r;
     entropy := entropy r; drawn := drawn r; clock := clock r;
     ticks := ticks r; console := console r |}.

Definition set_sessionArrays (h : gmap loc (list AuthSession)) (r : Runtime) : Runtime :=
  {| userArrays := userArrays r; sessionArrays := h;
     eventArrays := eventArrays r; nextLoc := nextLoc r;
     entropy := entropy r; drawn := drawn r; clock := clock r;
     ticks := ticks r; console := console r |}.

Definition set_eventArrays (h : gmap loc (list AuthEvent)) (r : Runtime) : Runtime :=
  {| userArrays := userArrays r; sessionArrays := sessionArrays r;
     eventArrays := h; nextLoc := nextLoc r;
     entropy := entropy r; drawn := drawn r; clock := clock r;
     ticks := ticks r; console := console r |}.

Definition bump_loc (r : Runtime) : Runtime :=
  {| userArrays := userArrays r; sessionArrays := sessionArrays r;
     eventArrays := eventArrays r; nextLoc := S (nextLoc r);
     entropy := entropy r; drawn := drawn r; clock := clock r;
     ticks := ticks r; console := console r |}.

Definition bump_drawn (r : Runtime) : Runtime :=
  {| userArrays := userArrays r; sessionArrays := sessionArrays r;
     eventArrays := eventArrays r; nextLoc := nextLoc r;
     entropy := entropy r; drawn := S (drawn r); clock := clock r;
     ticks := ticks r; console := console r |}.

Definition bump_ticks (r : Runtime) : Runtime :=
  {| userArrays := userArrays r; sessionArrays := sessionArrays r;
     eventArrays := eventArrays r; nextLoc := nextLoc r;
     entropy := entropy r; drawn := drawn r; clock := clock r;
     ticks := S (ticks r); console := console r |}.

Definition print (call : ConsoleCall) (r : Runtime) : Runtime :=
  {| userArrays := userArrays r; sessionArrays := sessionArrays r;
     eventArrays := eventArrays r; nextLoc := nextLoc r;
     entropy := entropy r; drawn := drawn r; clock := clock r;
     ticks := ticks r; console := (console r ++ [call])%list |}.

Definition set_users (l : loc) (s : SimulatorState) : SimulatorState :=
  {| users := l; sessions := sessions s; events := events s;
     config := config s; isRunning := isRunning s |}.

Definition set_sessions (l : loc) (s : SimulatorState) : SimulatorState :=
  {| users := users s; sessions := l; events := events s;
     config := config s; isRunning := isRunning s |}.

Definition set_events (l : loc) (s : SimulatorState) : SimulatorState :=
  {| users := users s; sessions := sessions s; events := l;
     config := config s; isRunning := isRunning s |}.

Definition set_isRunning (b : bool) (s : SimulatorState) : SimulatorState :=
  {| users := users s; sessions := sessions s; events := events s;
     config := config s; isRunning := b |}.

(** *** Arrays *)

(** Reading and overwriting the cell of an array reference. A reference
    the runtime never allocated reads as the empty array; JavaScript has no
    such reference. *)
Definition load {A} (h : gmap loc (list A)) (l : loc) : list A := h !!! l.
Definition store {A} (h : gmap loc (list A)) (l : loc) (v : list A) : gmap loc (list A) :=
  <[l := v]> h.
Arguments load : simpl never.
Arguments store : simpl never.

Definition usersAt (l : loc) (c : Cfg) : list User := load (userArrays (rt c)) l.
Definition sessionsAt (l : loc) (c : Cfg) : list AuthSession := load (sessionArrays (rt c)) l.
Definition eventsAt (l : loc) (c : Cfg) : list AuthEvent := load (eventArrays (rt c)) l.

(** The contents of [this.state.users], [this.state.sessions] and
    [this.state.events]. *)
Definition usersOf (c : Cfg) : list User := usersAt (users (state (this c))) c.
Definition sessionsOf (c : Cfg) : list AuthSession := sessionsAt (sessions (state (this c))) c.
Definition eventsOf (c : Cfg) : list AuthEvent := eventsAt (events (state (this c))) c.

Definition writeUsers (l : loc) (us : list User) : M unit :=
  modify (with_rt (fun r => set_userArrays (store (userArrays r) l us) r)).

Definition writeSessions (l : loc) (ss : list AuthSession) : M unit :=
  modify (with_rt (fun r => set_sessionArrays (store (sessionArrays r) l ss) r)).

Definition writeEvents (l : loc) (es : list AuthEvent) : M unit :=
  modify (with_rt (fun r => set_eventArrays (store (eventArrays r) l es) r)).

Definition freshLoc : M loc :=
  fun c => (Normal (nextLoc (rt c)), with_rt bump_loc c).

(** An array literal or a copy: a new cell. *)
Definition newUsers (us : list User) : M loc :=
  let* l := freshLoc in let* _ := writeUsers l us in ret l.

Definition newSessions (ss : list AuthSession) : M loc :=
  let* l := freshLoc in let* _ := writeSessions l ss in ret l.

Definition newEvents (es : list AuthEvent) : M loc :=
  let* l := freshLoc in let* _ := writeEvents l es in ret l.

(** [a.push(x)] *)
Definition pushUser (l : loc) (u : User) : M unit :=
  let* us := gets (usersAt l) in writeUsers l (us ++ [u])%list.

Definition pushSession (l : loc) (s : AuthSession) : M unit :=
  let* ss := gets (sessionsAt l) in writeSessions l (ss ++ [s])%list.

Definition pushEvent (l : loc) (e : AuthEvent) : M unit :=
  let* es := gets (eventsAt l) in writeEvents l (es ++ [e])%list.

(** [a.findIndex(p)], -1 when no element satisfies [p]. *)
Fixpoint findIndex_from {A} (p : A -> bool) (l : list A) (i : Z) : Z :=
  match l with
  | [] => -1
  | x :: l' => if p x then i else findIndex_from p l' (i + 1)
  end.

Definition findIndex {A} (p : A -> bool) (l : list A) : Z := findIndex_from p l 0.

(** [a.splice(i, 1)] for an index [0 <= i]. *)
Definition splice1 {A} (i : Z) (l : list A) : list A :=
  (take (Z.to_nat i) l ++ drop (S (Z.to_nat i)) l)%list.

(** *** Oracles *)

(** [new Date()] and [Date.now()] *)
Definition now : M Z :=
  fun c => (Normal (clock (rt c) (ticks (rt c))), with_rt bump_ticks c).

(** [Math.random().toString(36).substring(2)] *)
Definition randomDigits : M string :=
  fun c => (Normal (entropy (rt c) (drawn (rt c))), with_rt bump_drawn c).

(** ** utils/helpers.ts *)

(** [n.toString(36)] for an integer [n]. *)
Definition digit36 (d : Z) : ascii :=
  ascii_of_nat (Z.to_nat (if d <? 10 then 48 + d else 87 + d)).

Fixpoint toString36_digits (fuel : nat) (n : Z) (acc : string) : string :=
  match fuel with
  | O => acc
  | S fuel' =>
      let acc' := String (digit36 (n mod 36)) acc in
      if n / 36 =? 0 then acc' else toString36_digits fuel' (n / 36) acc'
  end.

Definition toString36 (n : Z) : string :=
  if n <? 0
  then "-" +:+ toString36_digits (S (Z.to_nat (Z.log2 (- n)))) (- n) ""
  else toString36_digits (S (Z.to_nat (Z.log2 n))) n "".

(** [generateId]: [Math.random().toString(36).substring(2) + Date.now().toString(36)] *)
Definition generateId : M string :=
  let* r := randomDigits in
  let* t := now in
  ret (r +:+ toString36 t).

(** [delay(ms)]: the timer suspends the caller and touches neither the
    simulator nor the arrays; the time that passes shows in the next
    reading of the clock, which the oracle leaves free. *)
Definition helpers_delay (ms : Z) : M unit := ret tt.

Definition code_of (c : ascii) : Z := Z.of_nat (nat_of_ascii c).

Definition in_range (lo hi : Z) (c : ascii) : bool :=
  (lo <=? code_of c) && (code_of c <=? hi).

(** The characters [encodeURIComponent] leaves alone:
    [A-Z a-z 0-9 - _ . ! ~ * ' ( )]. *)
Definition uri_unreserved (c : ascii) : bool :=
  in_range 65 90 c || in_range 97 122 c || in_range 48 57 c
  || existsb (Ascii.eqb c) (list_ascii_of_string "-_.!~*'()").

Definition unit_unreserved (u : Z) : bool :=
  (u <? 128) && uri_unreserved (ascii_of_nat (Z.to_nat u)).

Definition hex_digit (d : Z) : ascii :=
  ascii_of_nat (Z.to_nat (if d <? 10 then 48 + d else 55 + d)).

(** [%XX] for one octet. *)
Definition percent_octet (b : Z) : string :=
  String "%" (String (hex_digit (b / 16)) (String (hex_digit (b mod 16)) EmptyString)).

(** The UTF-8 octets of a code point. *)
Definition utf8 (cp : Z) : list Z :=
  if cp <? 128 then [cp]
  else if cp <? 2048 then [192 + cp / 64; 128 + cp mod 64]
  else if cp <? 65536 then [224 + cp / 4096; 128 + (cp / 64) mod 64; 128 + cp mod 64]
  else [240 + cp / 262144; 128 + (cp / 4096) mod 64; 128 + (cp / 64) mod 64;
        128 + cp mod 64].

Definition percent_utf8 (cp : Z) : string :=
  fold_right (fun b acc => percent_octet b +:+ acc) EmptyString (utf8 cp).

(** [encodeURIComponent] on the code units of a string: an unreserved unit
    is kept, any other code point becomes the [%XX] of its UTF-8 octets, a
    surrogate pair being one code point, and a surrogate without its partner
    is the [URIError], [None] here. *)
Fixpoint encode_units (units : list Z) : option string :=
  match units with
  | [] => Some EmptyString
  | u :: rest =>
      if unit_unreserved u then
        option_map (String (ascii_of_nat (Z.to_nat u))) (encode_units rest)
      else if (u <? 55296) || (57343 <? u) then
        option_map (String.append (percent_utf8 u)) (encode_units rest)
      else if 56320 <=? u then None
      else
        match rest with
        | v :: rest' =>
            if (56320 <=? v) && (v <=? 57343) then
              option_map
                (String.append
                   (percent_utf8 ((u - 55296) * 1024 + (v - 56320) + 65536)))
                (encode_units rest')
            else None
        | [] => None
        end
  end.

Definition encodeURIComponent (s : string) : option string :=
  encode_units (map code_of (list_ascii_of_string s)).

(** [createMockUser(email, name, twoFactorEnabled = false)] *)
Definition createMockUser (email name : string) (twoFactor : option bool) : M User :=
  let* id := generateId in
  let* encoded := match encodeURIComponent name with
                  | Some e => ret e
                  | None => throw (URIError "URI malformed")
                  end in
  let* created := now in
  ret {| user_id := id;
         user_email := email;
         user_name := name;
         user_avatar := Some ("https://ui-avatars.com/api/?name="
                              +:+ encoded +:+ "&background=random");
         emailVerified := true;
         twoFactorEnabled := default false twoFactor;
         user_createdAt := created;
         lastLoginAt := None |}.

(** ** simulators/AuthFlowSimulator.ts *)

Definition readState : M SimulatorState := gets (fun c => state (this c)).
Definition readOptions : M SimulatorOptions := gets (fun c => options (this c)).

(** [log(message, data)]: when logging is on,
    [console.log(`[AuthFlowSimulator] ${message}`, data || "")]. *)
Definition log (message : string) (data : option (list (string * jsval))) : M unit :=
  let* o := readOptions in
  match enableLogging o with
  | Some true =>
      modify (with_rt (print {| line := "[AuthFlowSimulator] " +:+ message;
                                argument := match data with
                                            | Some d => LogData d
                                            | None => LogNothing
                                            end |}))
  | _ => ret tt
  end.

(** [delay()]: [if (this.options.delayMs && this.options.delayMs > 0)] *)
Definition delay : M unit :=
  let* o := readOptions in
  match delayMs o with
  | Some ms => if (negb (ms =? 0)) && (0 <? ms) then helpers_delay ms else ret tt
  | None => ret tt
  end.

(** [...(error && { error })]: the field is there when [error] is truthy. *)
Definition error_field (error : option string) : option string :=
  match error with
  | Some EmptyString => None
  | Some e => Some e
  | None => None
  end.

Definition emitEvent (type : AuthEventType) (ok : bool)
    (data : option (list (string * jsval))) (error : option string) : M unit :=
  let* t := now in
  let event := {| ev_type := type;
                  timestamp := t;
                  ev_userId := None;
                  ev_sessionId := None;
                  ev_data := default [] data;
                  ev_success := ok;
                  ev_error := error_field error |} in
  let* st := readState in
  let* _ := pushEvent (events st) event in
  log ("Event: " +:+ AuthEventType_name type +:+ " - "
       +:+ (if ok then "SUCCESS" else "FAILURE")) data.

Definition createDefaultUsers : M loc :=
  let* john := createMockUser "john@example.com" "John Doe" (Some true) in
  let* jane := createMockUser "jane@example.com" "Jane Smith" (Some false) in
  let* admin := createMockUser "admin@example.com" "Admin User" (Some true) in
  newUsers [john; jane; admin].

Definition default_config : AuthFlowConfig :=
  {| enable2FA := true;
     enablePasswordReset := true;
     enableOAuth := true;
     sessionTimeout := 30;
     maxLoginAttempts := 5;
     lockoutDuration := 15 |}.

(** [{ ...defaults, ...options.config }] *)
Definition merge_config (d : AuthFlowConfig) (p : option PartialConfig) : AuthFlowConfig :=
  match p with
  | None => d
  | Some p =>
      {| enable2FA := default (enable2FA d) (p_enable2FA p);
         enablePasswordReset := default (enablePasswordReset d) (p_enablePasswordReset p);
         enableOAuth := default (enableOAuth d) (p_enableOAuth p);
         sessionTimeout := default (sessionTimeout d) (p_sessionTimeout p);
         maxLoginAttempts := default (maxLoginAttempts d) (p_maxLoginAttempts p);
         lockoutDuration := default (lockoutDuration d) (p_lockoutDuration p) |}
  end.

(** [{ enableLogging: true, delayMs: 100, ...options }] *)
Definition merge_options (o : SimulatorOptions) : SimulatorOptions :=
  {| opt_config := opt_config o;
     mockUsers := mockUsers o;
     enableLogging := Some (default true (enableLogging o));
     delayMs := Some (default 100 (delayMs o)) |}.

Definition no_options : SimulatorOptions :=
  {| opt_config := None; mockUsers := None; enableLogging := None; delayMs := None |}.

(** [new AuthFlowSimulator(options)] in runtime [r]: the new object and the
    runtime after the constructor ran. An array, empty or not, is truthy, so
    [options.mockUsers || this.createDefaultUsers()] keeps the caller's
    array whenever there is one. *)
Definition construct (o : SimulatorOptions) : M unit :=
  let* _ := modify (fun c =>
              {| this := {| state := state (this c); options := merge_options o |};
                 rt := rt c |}) in
  let* us := match mockUsers o with
             | Some l => ret l
             | None => createDefaultUsers
             end in
  let* ss := newSessions [] in
  let* es := newEvents [] in
  modify (with_state (fun _ =>
    {| users := us; sessions := ss; events := es;
       config := merge_config default_config (opt_config o);
       isRunning := false |})).

Definition blank_state : SimulatorState :=
  {| users := O; sessions := O; events := O;
     config := default_config; isRunning := false |}.

Definition new_AuthFlowSimulator (o : SimulatorOptions) (r : Runtime) : Completion unit * Cfg :=
  construct o {| this := {| state := blank_state; options := no_options |}; rt := r |}.

Definition start : M unit :=
  let* _ := modify (with_state (set_isRunning true)) in
  let* _ := log "Simulator started" None in
  emitEvent login_attempt true None None.

Definition stop : M unit :=
  let* _ := modify (with_state (set_isRunning false)) in
  let* _ := log "Simulator stopped" None in
  emitEvent logout true None None.

Definition findUserByEmail (email : jsval) : M (option User) :=
  let* st := readState in
  let* us := gets (usersAt (users st)) in
  ret (find (fun user => strict_eq (user_email user) email) us).

Definition findUserById (id : string) : M (option User) :=
  let* st := readState in
  let* us := gets (usersAt (users st)) in
  ret (find (fun user => String.eqb (user_id user) id) us).

(** [password.length >= 6]; reading [length] of [undefined] or [null]
    throws. *)
Definition validatePassword (_user : User) (password : jsval) : M bool :=
  match password with
  | JString p => ret (6 <=? Z.of_nat (String.length p))
  | JUndefined =>
      throw (TypeError "Cannot read properties of undefined (reading 'length')")
  | JNull =>
      throw (TypeError "Cannot read properties of null (reading 'length')")
  end.

Definition is_digit (c : ascii) : bool := in_range 48 57 c.

(** [^\d{n}$] against the whole of [s]: [n] characters, each in [0-9],
    and then the end of the input. *)
Fixpoint match_digits (n : nat) (s : string) : bool :=
  match n, s with
  | O, EmptyString => true
  | S n', String c s' => is_digit c && match_digits n' s'
  | _, _ => false
  end.

(** [/^\d{6}$/.test(code.code)] *)
Definition validate2FACode (_user : User) (c : TwoFactorCode) : M bool :=
  ret (match_digits 6 (code c)).

Definition simulator_device : DeviceInfo :=
  {| userAgent := "AuthFlowSimulator/1.0.0";
     ipAddress := "127.0.0.1";
     deviceType := desktop;
     browser := None;
     os := None |}.

Definition thirty_days_ms : Z := 30 * 24 * 60 * 60 * 1000.
Definition thirty_minutes_ms : Z := 30 * 60 * 1000.

(** [createSession(user, rememberMe = false)] *)
Definition createSession (user : User) (remember : option bool) : M AuthSession :=
  let rememberMe := default false remember in
  let* id := generateId in
  let* tok := generateId in
  let* refresh := generateId in
  let* t := now in
  let* created := now in
  let session := {| session_id := id;
                    session_userId := user_id user;
                    token := tok;
                    refreshToken := Some refresh;
                    expiresAt := t + (if rememberMe then thirty_days_ms else thirty_minutes_ms);
                    session_createdAt := created;
                    deviceInfo := Some simulator_device |} in
  let* st := readState in
  let* _ := pushSession (sessions st) session in
  let* _ := emitEvent session_created true
              (Some [("userId", JString (user_id user));
                     ("sessionId", JString (session_id session))]) None in
  ret session.

(** [findOrCreateOAuthUser(callback)] *)
Definition findOrCreateOAuthUser (callback : OAuthCallback) : M User :=
  let email := "oauth-" +:+ provider callback +:+ "@example.com" in
  let* found := findUserByEmail (JString email) in
  match found with
  | Some user => ret user
  | None =>
      let* user := createMockUser email (provider callback +:+ " User") (Some false) in
      let* st := readState in
      let* _ := pushUser (users st) user in
      ret user
  end.

(** The object literals the operations return. *)
Definition failure (error : string) : AuthResult :=
  {| success := false; res_user := None; res_session := None;
     res_error := Some error; requires2FA := None; requiresPasswordReset := None |}.

Definition success_only : AuthResult :=
  {| success := true; res_user := None; res_session := None;
     res_error := None; requires2FA := None; requiresPasswordReset := None |}.

Definition success_with (user : User) (session : AuthSession) : AuthResult :=
  {| success := true; res_user := Some user; res_session := Some session;
     res_error := None; requires2FA := None; requiresPasswordReset := None |}.

Definition twofa_challenge (user : User) : AuthResult :=
  {| success := false; res_user := Some user; res_session := None;
     res_error := Some "Two-factor authentication required";
     requires2FA := Some true; requiresPasswordReset := None |}.

Definition simulateLogin (credentials : LoginCredentials) : M AuthResult :=
  let* _ := delay in
  let* found := findUserByEmail (cred_email credentials) in
  match found with
  | None =>
      let* _ := emitEvent login_failure false
                  (Some [("email", cred_email credentials)]) (Some "User not found") in
      ret (failure "Invalid credentials")
  | Some user =>
      let* isValidPassword := validatePassword user (cred_password credentials) in
      if negb isValidPassword then
        let* _ := emitEvent login_failure false
                    (Some [("userId", JString (user_id user));
                           ("email", cred_email credentials)])
                    (Some "Invalid password") in
        ret (failure "Invalid credentials")
      else if twoFactorEnabled user then
        let* _ := emitEvent twofa_required true
                    (Some [("userId", JString (user_id user))]) None in
        ret (twofa_challenge user)
      else
        let* session := createSession user (rememberMe credentials) in
        let* _ := emitEvent login_success true
                    (Some [("userId", JString (user_id user));
                           ("sessionId", JString (session_id session))]) None in
        ret (success_with user session)
  end.

Definition simulate2FA (userId : string) (c : TwoFactorCode) : M AuthResult :=
  let* _ := delay in
  let* found := findUserById userId in
  match found with
  | None => ret (failure "User not found")
  | Some user =>
      let* isValidCode := validate2FACode user c in
      if negb isValidCode then
        let* _ := emitEvent twofa_failure false
                    (Some [("userId", JString userId)]) (Some "Invalid 2FA code") in
        ret (failure "Invalid 2FA code")
      else
        let* session := createSession user (Some false) in
        let* _ := emitEvent twofa_success true
                    (Some [("userId", JString userId);
                           ("sessionId", JString (session_id session))]) None in
        ret (success_with user session)
  end.

Definition simulatePasswordResetRequest (request : PasswordResetRequest) : M AuthResult :=
  let* _ := delay in
  let* found := findUserByEmail (req_email request) in
  match found with
  | None =>
      let* _ := emitEvent password_reset_requested true
                  (Some [("email", req_email request)]) None in
      ret success_only
  | Some user =>
      let* resetToken := generateId in
      let* _ := emitEvent password_reset_requested true
                  (Some [("userId", JString (user_id user));
                         ("resetToken", JString resetToken)]) None in
      ret success_only
  end.

Definition simulatePasswordResetConfirm (confirm : PasswordResetConfirm) : M AuthResult :=
  let* _ := delay in
  let* _ := emitEvent password_reset_completed true
              (Some [("token", JString (confirm_token confirm))]) None in
  ret success_only.

Definition simulateOAuthCallback (callback : OAuthCallback) : M AuthResult :=
  let* _ := delay in
  let* user := findOrCreateOAuthUser callback in
  let* session := createSession user (Some false) in
  let* _ := emitEvent oauth_callback true
              (Some [("userId", JString (user_id user));
                     ("sessionId", JString (session_id session));
                     ("provider", JString (provider callback))]) None in
  ret (success_with user session).

Definition simulateLogout (sessionId : string) : M AuthResult :=
  let* _ := delay in
  let* st := readState in
  let* ss := gets (sessionsAt (sessions st)) in
  let sessionIndex := findIndex (fun s => String.eqb (session_id s) sessionId) ss in
  if sessionIndex =? -1 then ret (failure "Session not found")
  else
    let* _ := writeSessions (sessions st) (splice1 sessionIndex ss) in
    let* _ := emitEvent logout true (Some [("sessionId", JString sessionId)]) None in
    ret success_only.

Definition checkSession (sessionId : string) : M AuthResult :=
  let* _ := delay in
  let* st := readState in
  let* ss := gets (sessionsAt (sessions st)) in
  match find (fun s => String.eqb (session_id s) sessionId) ss with
  | None =>
      let* _ := emitEvent session_expired false
                  (Some [("sessionId", JString sessionId)]) (Some "Session not found") in
      ret (failure "Session not found")
  | Some session =>
      let* t := now in
      if expiresAt session <? t then
        let* kept := newSessions
                       (List.filter (fun s => negb (String.eqb (session_id s) sessionId)) ss) in
        let* _ := modify (with_state (set_sessions kept)) in
        let* _ := emitEvent session_expired false
                    (Some [("sessionId", JString sessionId)]) (Some "Session expired") in
        ret (failure "Session expired")
      else
        let* found := findUserById (session_userId session) in
        match found with
        | None => ret (failure "User not found")
        | Some user => ret (success_with user session)
        end
  end.

(** [getState()]: [{ ...this.state }], a new object with the fields of
    [this.state], so with the same three array references. *)
Definition getState : M SimulatorState :=
  let* st := readState in
  ret {| users := users st; sessions := sessions st; events := events st;
         config := config st; isRunning := isRunning st |}.

(** [getEvents()]: [[...this.state.events]], a new array. *)
Definition getEvents : M loc :=
  let* st := readState in
  let* es := gets (eventsAt (events st)) in
  newEvents es.

Definition reset : M unit :=
  let* us := createDefaultUsers in
  let* _ := modify (with_state (set_users us)) in
  let* ss := newSessions [] in
  let* _ := modify (with_state (set_sessions ss)) in
  let* es := newEvents [] in
  let* _ := modify (with_state (set_events es)) in
  log "Simulator reset" None.

(** ** What a caller can do with an array it was handed *)

Definition external_push_session (l : loc) (s : AuthSession) : M unit := pushSession l s.
Definition external_push_event (l : loc) (e : AuthEvent) : M unit := pushEvent l e.
(** [a.length = 0] *)
Definition external_clear_users (l : loc) : M unit := writeUsers l [].
Definition external_clear_events (l : loc) : M unit := writeEvents l [].

(** ** utils/helpers.ts: validators

    A regular expression literal is embedded as a term of [regex] and run by
    a derivative matcher; [regex_test] is [/^r$/.test(s)], the whole input
    against [r]. *)

Inductive regex : Type :=
  | Nothing
  | Epsilon
  | Class (p : ascii -> bool)
  | Seq (r1 r2 : regex)
  | Alt (r1 r2 : regex)
  | Star (r : regex).

(** [r+] *)
Definition Plus (r : regex) : regex := Seq r (Star r).

Fixpoint nullable (r : regex) : bool :=
  match r with
  | Nothing => false
  | Epsilon => true
  | Class _ => false
  | Seq r1 r2 => nullable r1 && nullable r2
  | Alt r1 r2 => nullable r1 || nullable r2
  | Star _ => true
  end.

Fixpoint derive (ch : ascii) (r : regex) : regex :=
  match r with
  | Nothing => Nothing
  | Epsilon => Nothing
  | Class p => if p ch then Epsilon else Nothing
  | Seq r1 r2 =>
      if nullable r1
      then Alt (Seq (derive ch r1) r2) (derive ch r2)
      else Seq (derive ch r1) r2
  | Alt r1 r2 => Alt (derive ch r1) (derive ch r2)
  | Star r1 => Seq (derive ch r1) (Star r1)
  end.

Fixpoint regex_test (r : regex) (s : string) : bool :=
  match s with
  | EmptyString => nullable r
  | String ch s' => regex_test (derive ch r) s'
  end.

(** The strings a regular expression denotes. *)
Inductive lang : regex -> string -> Prop :=
  | lang_epsilon : lang Epsilon EmptyString
  | lang_class p ch : p ch = true -> lang (Class p) (String ch EmptyString)
  | lang_seq r1 r2 s1 s2 : lang r1 s1 -> lang r2 s2 -> lang (Seq r1 r2) (s1 +:+ s2)
  | lang_alt_l r1 r2 s : lang r1 s -> lang (Alt r1 r2) s
  | lang_alt_r r1 r2 s : lang r2 s -> lang (Alt r1 r2) s
  | lang_star_nil r : lang (Star r) EmptyString
  | lang_star_more r s1 s2 : lang r s1 -> lang (Star r) s2 -> lang (Star r) (s1 +:+ s2).

(** [\s] on code units below 256: tab, line feed, vertical tab, form feed,
    carriage return, space, no-break space. *)
Definition is_space (ch : ascii) : bool :=
  in_range 9 13 ch || (code_of ch =? 32) || (code_of ch =? 160).

(** [[^\s@]] *)
Definition email_char (ch : ascii) : bool :=
  negb (is_space ch || Ascii.eqb ch "@").

(** [/^[^\s@]+@[^\s@]+\.[^\s@]+$/] *)
Definition emailRegex : regex :=
  Seq (Plus (Class email_char))
    (Seq (Class (Ascii.eqb "@"))
       (Seq (Plus (Class email_char))
          (Seq (Class (Ascii.eqb "."))
             (Plus (Class email_char))))).

Definition isValidEmail (email : string) : bool := regex_test emailRegex email.

(** [/[c]/.test(s)] for a one-character pattern [c]: some character of [s]
    is in the class. *)
Definition test_class (p : ascii -> bool) (s : string) : bool :=
  existsb p (list_ascii_of_string s).

(** The character class of the last check of [validatePasswordStrength],
    by character code, in the order the source lists it: from 33, the
    exclamation mark, to 62, the greater-than sign; 34 is the double
    quote. *)
Definition special_codes : list Z :=
  [33; 64; 35; 36; 37; 94; 38; 42; 40; 41; 44; 46; 63; 34; 58; 123; 125; 124; 60; 62].

Definition is_special (ch : ascii) : bool :=
  existsb (Z.eqb (code_of ch)) special_codes.

Record StrengthReport : Type := mkReport {
  isValid : bool;
  errors : list string
}.

(** [errors.push(message)] when the check fails. *)
Definition push_unless (ok : bool) (message : string) (errors : list string) : list string :=
  if ok then errors else (errors ++ [message])%list.

Definition validatePasswordStrength (password : string) : StrengthReport :=
  let errors := [] in
  let errors := push_unless (negb (Z.of_nat (String.length password) <? 8))
                  "Password must be at least 8 characters long" errors in
  let errors := push_unless (test_class (in_range 65 90) password)
                  "Password must contain at least one uppercase letter" errors in
  let errors := push_unless (test_class (in_range 97 122) password)
                  "Password must contain at least one lowercase letter" errors in
  let errors := push_unless (test_class is_digit password)
                  "Password must contain at least one number" errors in
  let errors := push_unless (test_class is_special password)
                  "Password must contain at least one special character" errors in
  {| isValid := (length errors =? 0)%nat; errors := errors |}.

(** The values [isEmpty] tells apart: [null], [undefined], strings, arrays,
    other objects (by their own enumerable keys) and everything else
    (numbers, booleans, functions). *)
#[warnings="-register-all"] Inductive unknown : Type :=
  | UNull
  | UUndefined
  | UString (s : string)
  | UArray (elements : list unknown)
  | UObject (keys : list string)
  | UPrimitive.

(** [s.trim()]: the white space and line terminators at both ends go. *)
Fixpoint trimStart (l : list ascii) : list ascii :=
  match l with
  | [] => []
  | ch :: l' => if is_space ch then trimStart l' else l
  end.

Definition trim (s : string) : string :=
  string_of_list_ascii
    (List.rev (trimStart (List.rev (trimStart (list_ascii_of_string s))))).

Definition isEmpty (value : unknown) : bool :=
  match value with
  | UNull | UUndefined => true
  | UString s => String.eqb (trim s) ""
  | UArray elements => (length elements =? 0)%nat
  | UObject keys => (length keys =? 0)%nat
  | UPrimitive => false
  end.

(** [generateResetToken]: [generateId() + generateId()] *)
Definition generateResetToken : M string :=
  let* a := generateId in
  let* b := generateId in
  ret (a +:+ b).

(** ** A caller awaiting one login after another *)

Fixpoint loginEach (attempts : list LoginCredentials) : M (list AuthResult) :=
  match attempts with
  | [] => ret []
  | credentials :: rest =>
      let* r := simulateLogin credentials in
      let* rs := loginEach rest in
      ret (r :: rs)
  end.

(** ** Allocation discipline

    Every array the simulator holds was allocated before the next free
    reference. *)
Definition refs_allocated (c : Cfg) : Prop :=
  (users (state (this c)) < nextLoc (rt c))%nat
  /\ (sessions (state (this c)) < nextLoc (rt c))%nat
  /\ (events (state (this c)) < nextLoc (rt c))%nat.

(** ** Specification-side predicates and sample configurations *)

(** [u] is the user an email lookup of [u]'s own email finds: the first
    user of the directory carrying that email. *)
Definition resolved_by_email (c : Cfg) (u : User) : Prop :=
  find (fun user => strict_eq (user_email user) (JString (user_email u))) (usersOf c) = Some u.

(** Exactly six decimal digits. *)
Definition six_decimal_digits (s : string) : Prop :=
  String.length s = 6%nat /\
  Forall (fun ch => 48 <= code_of ch <= 57) (list_ascii_of_string s).

Definition sample_user (id email name : string) (twoFactor : bool) : User :=
  {| user_id := id; user_email := email; user_name := name; user_avatar := None;
     emailVerified := true; twoFactorEnabled := twoFactor;
     user_createdAt := 1700000000000; lastLoginAt := None |}.

Definition alice : User := sample_user "u1" "alice@example.com" "Alice" true.
Definition bob : User := sample_user "u2" "bob@example.com" "Bob" false.
(** A second account under Alice's email, and one under Bob's. *)
Definition mallory : User := sample_user "u3" "alice@example.com" "Mallory" false.
Definition trent : User := sample_user "u4" "bob@example.com" "Trent" true.

(** [k] strokes: the k-th random draw of the sample runtime. *)
Fixpoint tally (k : nat) : string :=
  match k with
  | O => EmptyString
  | S k' => String "x" (tally k')
  end.

(** The first clock readings of the sample runtime, one millisecond apart;
    later readings are an hour on. *)
Definition sample_readings : list Z :=
  Eval vm_compute in map (fun i => 1700000000000 + Z.of_nat i) (seq 0 40).

(** A runtime whose only array is the caller's user list, at reference 0. *)
Definition sample_runtime (us : list User) : Runtime :=
  {| userArrays := store ∅ O us; sessionArrays := ∅; eventArrays := ∅;
     nextLoc := 1%nat;
     entropy := tally; drawn := O;
     clock := fun k => nth k sample_readings 1700003600000; ticks := O;
     console := [] |}.

(** [new AuthFlowSimulator({ mockUsers: us, enableLogging: false, delayMs: 0 })] *)
Definition simulator_with (us : list User) : Cfg :=
  snd (new_AuthFlowSimulator
         {| opt_config := None; mockUsers := Some O;
            enableLogging := Some false; delayMs := Some 0 |}
         (sample_runtime us)).

(** [new AuthFlowSimulator()] *)
Definition default_simulator : Cfg :=
  snd (new_AuthFlowSimulator no_options (sample_runtime [])).

Definition credentials (email password : string) : LoginCredentials :=
  {| cred_email := JString email; cred_password := JString password;
     rememberMe := None |}.

(** What the login claims promise for user [u] and password [pw]. *)
Definition login_opens_session (c : Cfg) (u : User) (pw : string)
    (remember : option bool) : Prop :=
  exists s c',
    simulateLogin {| cred_email := JString (user_email u);
                     cred_password := JString pw;
                     rememberMe := remember |} c
      = (Normal (success_with u s), c')
    /\ session_userId s = user_id u
    /\ sessionsOf c' = (sessionsOf c ++ [s])%list.

Definition login_asks_second_factor (c : Cfg) (u : User) (pw : string)
    (remember : option bool) : Prop :=
  exists c',
    simulateLogin {| cred_email := JString (user_email u);
                     cred_password := JString pw;
                     rememberMe := remember |} c
      = (Normal (twofa_challenge u), c')
    /\ sessionsOf c' = sessionsOf c
    /\ sessionArrays (rt c') = sessionArrays (rt c).

(** The operation returns a result, whatever it is. *)
Definition returns_result {A} (m : M A) (c : Cfg) : Prop :=
  exists r c', m c = (Normal r, c').

(** [c'] holds the events of [c] followed by new ones of types [tys], in
    the same array. *)
Definition appended (c c' : Cfg) (tys : list AuthEventType) : Prop :=
  events (state (this c')) = events (state (this c))
  /\ exists es, eventsOf c' = (eventsOf c ++ es)%list /\ map ev_type es = tys.

(** The events a login call emits, read off its result. *)
Definition login_events (r : AuthResult) : list AuthEventType :=
  if success r then [session_created; login_success]
  else match requires2FA r with
       | Some true => [twofa_required]
       | _ => [login_failure]
       end.

Definition sample_session (id userId : string) (expires : Z) : AuthSession :=
  {| session_id := id; session_userId := userId; token := "t-" +:+ id;
     refreshToken := None; expiresAt := expires;
     session_createdAt := 1600000000000; deviceInfo := None |}.

(** A simulator over [us] with the sessions [ss] already open. *)
Definition simulator_with_sessions (us : list User) (ss : list AuthSession) : Cfg :=
  with_rt (fun r => set_sessionArrays
                      (store (sessionArrays r) (sessions (state (this (simulator_with us)))) ss) r)
          (simulator_with us).

(** The events a session check emits, read off its result. *)
Definition check_events (r : AuthResult) : list AuthEventType :=
  if success r then []
  else match res_error r with
       | Some e => if String.eqb e "User not found" then [] else [session_expired]
       | None => []
       end.

(** The directory, configuration, options and running flag of [c'] are
    those of [c]. *)
Definition same_directory (c c' : Cfg) : Prop :=
  usersOf c' = usersOf c
  /\ users (state (this c')) = users (state (this c))
  /\ config (state (this c')) = config (state (this c))
  /\ isRunning (state (this c')) = isRunning (state (this c))
  /\ options (this c') = options (this c).

(** [c] with another configuration and running flag. *)
Definition reconfigured (cfg : AuthFlowConfig) (running : bool) (c : Cfg) : Cfg :=
  with_state (fun st => {| users := users st; sessions := sessions st;
                           events := events st; config := cfg;
                           isRunning := running |}) c.

(** The [console.log] call [emitEvent] makes for an event emitted with a
    data object: the line names type and outcome, the second argument is
    the data. *)
Definition event_call (e : AuthEvent) : ConsoleCall :=
  {| line := "[AuthFlowSimulator] Event: " +:+ AuthEventType_name (ev_type e) +:+ " - "
             +:+ (if ev_success e then "SUCCESS" else "FAILURE");
     argument := LogData (ev_data e) |}.

Definition logging_on (c : Cfg) : bool :=
  match enableLogging (options (this c)) with
  | Some true => true
  | _ => false
  end.

(** [c'] holds the events of [c] and then [es], and its console the calls
    of [c] and then one call for each of [es] when logging is on. *)
Definition logged (c c' : Cfg) (es : list AuthEvent) : Prop :=
  eventsOf c' = (eventsOf c ++ es)%list
  /\ console (rt c')
     = (console (rt c) ++ (if logging_on c then map event_call es else []))%list.

(** A part of an email address as [isValidEmail] wants it: not empty, and
    without white space and without [@]. *)
Definition email_part (s : string) : Prop :=
  s <> EmptyString
  /\ Forall (fun ch => email_char ch = true) (list_ascii_of_string s).



(** ** Running the methods symbolically *)

Arguments toString36 : simpl never.

Ltac open_cfg c :=
  let lu := fresh "lu" in let ls := fresh "ls" in let le := fresh "le" in
  let cfg := fresh "cfg" in let run := fresh "run" in
  let oc := fresh "oc" in let om := fresh "om" in
  let ol := fresh "ol" in let od := fresh "od" in
  let ua := fresh "ua" in let sa := fresh "sa" in let ea := fresh "ea" in
  let nl := fresh "nl" in let en := fresh "en" in let dr := fresh "dr" in
  let ck := fresh "ck" in let tk := fresh "tk" in let co := fresh "co" in
  destruct c as [[[lu ls le cfg run] [oc om ol od]] [ua sa ea nl en dr ck tk co]].

(** Unfolds the methods and the record accessors, and nothing of the
    lists, strings and numbers they work on. *)
Ltac exec :=
  cbv [bind ret throw gets modify
       with_rt with_state set_userArrays set_sessionArrays set_eventArrays
       bump_loc bump_drawn bump_ticks print
       set_users set_sessions set_events set_isRunning
       usersAt sessionsAt eventsAt usersOf sessionsOf eventsOf
       writeUsers writeSessions writeEvents freshLoc
       newUsers newSessions newEvents pushUser pushSession pushEvent
       now randomDigits generateId helpers_delay
       createMockUser readState readOptions log emitEvent
       createDefaultUsers construct new_AuthFlowSimulator start stop
       findUserByEmail findUserById validatePassword validate2FACode
       createSession findOrCreateOAuthUser
       simulateLogin simulate2FA simulatePasswordResetRequest
       simulatePasswordResetConfirm simulateOAuthCallback simulateLogout
       checkSession getState getEvents reset
       external_push_session external_push_event
       external_clear_users external_clear_events
       this rt state options users sessions events config isRunning
       userArrays sessionArrays eventArrays nextLoc entropy drawn clock ticks console
       opt_config mockUsers enableLogging delayMs
       cred_email cred_password rememberMe code req_email confirm_token provider
       session_id session_userId expiresAt fst snd].

(** Runs a method from an arbitrary configuration, once for each setting of
    the logging option. *)
Ltac run_from c :=
  let lu := fresh "lu" in let ls := fresh "ls" in let le := fresh "le" in
  let cfg := fresh "cfg" in let run := fresh "run" in
  let oc := fresh "oc" in let om := fresh "om" in let od := fresh "od" in
  let ua := fresh "ua" in let sa := fresh "sa" in let ea := fresh "ea" in
  let nl := fresh "nl" in let en := fresh "en" in let dr := fresh "dr" in
  let ck := fresh "ck" in let tk := fresh "tk" in let co := fresh "co" in
  destruct c as [[[lu ls le cfg run] [oc om [[|]|] od]] [ua sa ea nl en dr ck tk co]];
  exec.

(** * Properties *)

(** ** The array store *)

Lemma load_store_eq {A} (h : gmap loc (list A)) l v : load (store h l v) l = v.
Proof. unfold load, store. apply lookup_total_insert_eq. Qed.

Lemma load_store_ne {A} (h : gmap loc (list A)) l l' v :
  l <> l' -> load (store h l v) l' = load h l'.
Proof. intros Hne. unfold load, store. by apply lookup_total_insert_ne. Qed.

(** Closes [appended c c' tys] once both configurations are explicit. *)
Ltac show_appended :=
  unfold appended; exec; split; [reflexivity|];
  first
    [ exists []; split; [rewrite app_nil_r; reflexivity | reflexivity]
    | eexists; split;
      [ rewrite ?load_store_eq, <- ?app_assoc; cbn [Datatypes.app]; reflexivity
      | reflexivity ] ].

(** ** Sequencing *)

Lemma bind_run {A B} (m : M A) (k : A -> M B) c a c' :
  m c = (Normal a, c') -> bind m k c = k a c'.
Proof. intros H. unfold bind. now rewrite H. Qed.

(** The delay leaves the simulator and the runtime as they are. *)
Lemma delay_run (c : Cfg) : delay c = (Normal tt, c).
Proof.
  unfold delay, readOptions, gets, bind.
  destruct (delayMs (options (this c))) as [ms|];
    [destruct (negb (ms =? 0) && (0 <? ms))|]; reflexivity.
Qed.

Ltac skip_delay := rewrite (bind_run _ _ _ _ _ (delay_run _)).

(** ** Encoding a name *)

Lemma code_of_small (ch : ascii) : 0 <= code_of ch < 256.
Proof.
  unfold code_of. pose proof (nat_ascii_bounded ch). lia.
Qed.

Lemma encode_units_small (units : list Z) :
  Forall (fun u => 0 <= u < 256) units -> exists e, encode_units units = Some e.
Proof.
  induction 1 as [|u rest Hu _ [e IH]]; [now exists EmptyString|].
  cbn [encode_units]. rewrite IH.
  destruct (unit_unreserved u); [eexists; reflexivity|].
  replace (u <? 55296) with true by (symmetry; apply Z.ltb_lt; lia).
  eexists. reflexivity.
Qed.

(** No string of the embedding makes [encodeURIComponent] throw: its code
    units are below the surrogates. *)
Lemma encodeURIComponent_defined (s : string) : exists e, encodeURIComponent s = Some e.
Proof.
  unfold encodeURIComponent. apply encode_units_small.
  induction s as [|ch s IH]; cbn; constructor; [apply code_of_small | exact IH].
Qed.

(** Replaces each encoded name of the goal by its value. *)
Ltac settle_names :=
  repeat match goal with
         | |- context [encodeURIComponent ?n] =>
             let e := fresh "encoded" in
             let H := fresh "Hencoded" in
             let o := fresh "o" in
             destruct (encodeURIComponent_defined n) as [e H];
             revert H; generalize (encodeURIComponent n); intros o H; subst o
         end;
  cbv beta iota.

(** ** Lookups *)

Lemma find_first_of_distinct {A} (key : A -> string) (l : list A) (x : A) :
  NoDup (map key l) -> In x l ->
  find (fun y => String.eqb (key y) (key x)) l = Some x.
Proof.
  induction l as [|y l IH]; intros Hnd Hin; [destruct Hin|].
  cbn in Hnd. apply NoDup_cons in Hnd as [Hhead Htail].
  destruct Hin as [->|Hin]; cbn.
  - now rewrite String.eqb_refl.
  - destruct (String.eqb (key y) (key x)) eqn:E.
    + apply String.eqb_eq in E. exfalso. apply Hhead.
      rewrite E. apply list_elem_of_In, in_map, Hin.
    + apply IH; [exact Htail | exact Hin].
Qed.

Lemma resolved_when_emails_distinct (c : Cfg) (u : User) :
  NoDup (map user_email (usersOf c)) -> In u (usersOf c) -> resolved_by_email c u.
Proof. intros Hnd Hin. exact (find_first_of_distinct user_email _ u Hnd Hin). Qed.

(** ** Login *)

(** C1, amended: for every user with [twoFactorEnabled = false] that the
    lookup of its own email resolves to (the first user of the directory
    with that email, so every user when the emails are distinct),
    [simulateLogin] with that email and a password of length at least 6
    returns success with that user and a session whose [userId] is the
    user's id, and the session is appended to the active sessions. *)
Theorem login_without_2fa_opens_session (c : Cfg) (u : User) (pw : string)
    (remember : option bool) :
  resolved_by_email c u ->
  twoFactorEnabled u = false ->
  6 <= Z.of_nat (String.length pw) ->
  login_opens_session c u pw remember.
Proof.
  unfold resolved_by_email, login_opens_session, simulateLogin.
  rewrite <- Z.leb_le. skip_delay. run_from c.
  all: intros Hfind H2fa Hlen; rewrite Hfind, Hlen, H2fa; cbv beta iota delta [negb].
  all: eexists; eexists; split; [reflexivity|]; split; [reflexivity|].
  all: exec; rewrite load_store_eq; reflexivity.
Qed.

Lemma login_without_2fa_opens_session_witness :
  login_opens_session (simulator_with [alice; bob]) bob "secret1" None.
Proof.
  apply login_without_2fa_opens_session.
  - vm_compute. reflexivity.
  - reflexivity.
  - vm_compute. discriminate.
Defined.

(** C1 as stated fails when an earlier account carries the same email:
    Mallory is in the directory with two-factor off, and a login with her
    email is answered for Alice, with the two-factor challenge. *)
Lemma login_shadowed_account_gets_no_session :
  In mallory (usersOf (simulator_with [alice; mallory]))
  /\ twoFactorEnabled mallory = false
  /\ 6 <= Z.of_nat (String.length "secret1")
  /\ ~ login_opens_session (simulator_with [alice; mallory]) mallory "secret1" None
  /\ login_asks_second_factor (simulator_with [alice; mallory]) alice "secret1" None.
Proof.
  split; [vm_compute; auto|]. split; [reflexivity|].
  split; [vm_compute; discriminate|]. split.
  - intros (s & c' & H & _). vm_compute in H. discriminate H.
  - eexists. split; [vm_compute; reflexivity|]. split; vm_compute; reflexivity.
Qed.

(** C2, amended: for every user with [twoFactorEnabled = true] that the
    lookup of its own email resolves to, [simulateLogin] with that email and
    a password of length at least 6 returns [success = false],
    [requires2FA = true] and that user, without a session field, and no
    session array changes. *)
Theorem login_with_2fa_is_challenged (c : Cfg) (u : User) (pw : string)
    (remember : option bool) :
  resolved_by_email c u ->
  twoFactorEnabled u = true ->
  6 <= Z.of_nat (String.length pw) ->
  login_asks_second_factor c u pw remember.
Proof.
  unfold resolved_by_email, login_asks_second_factor, simulateLogin.
  rewrite <- Z.leb_le. skip_delay. run_from c.
  all: intros Hfind H2fa Hlen; rewrite Hfind, Hlen, H2fa; cbv beta iota delta [negb].
  all: eexists; split; [reflexivity|]; split; reflexivity.
Qed.

Lemma login_with_2fa_is_challenged_witness :
  login_asks_second_factor (simulator_with [alice; bob]) alice "secret1" None.
Proof.
  apply login_with_2fa_is_challenged.
  - vm_compute. reflexivity.
  - reflexivity.
  - vm_compute. discriminate.
Defined.

(** C2 as stated fails the same way: Trent has two-factor on, and a login
    with his email is answered for Bob, who has it off, with a new
    session. *)
Lemma login_shadowed_2fa_account_opens_session :
  In trent (usersOf (simulator_with [bob; trent]))
  /\ twoFactorEnabled trent = true
  /\ 6 <= Z.of_nat (String.length "secret1")
  /\ ~ login_asks_second_factor (simulator_with [bob; trent]) trent "secret1" None
  /\ login_opens_session (simulator_with [bob; trent]) bob "secret1" None.
Proof.
  split; [vm_compute; auto|]. split; [reflexivity|].
  split; [vm_compute; discriminate|]. split.
  - intros (c' & H & _). vm_compute in H. discriminate H.
  - eexists. eexists. split; [vm_compute; reflexivity|]. split; vm_compute; reflexivity.
Qed.

(** C8, amended: when the email resolves to a user, a password that is a
    string shorter than 6 characters (the empty string included) gets the
    generic failure result and no session, and any string password gets a
    result; a password that is [undefined] or [null], which the type of
    [LoginCredentials] rules out, makes [password.length] throw a
    [TypeError] before anything is recorded. *)
Theorem login_password_check (c : Cfg) (e : jsval) (u : User) (remember : option bool) :
  find (fun user => strict_eq (user_email user) e) (usersOf c) = Some u ->
  (forall pw, Z.of_nat (String.length pw) < 6 ->
     exists c',
       simulateLogin {| cred_email := e; cred_password := JString pw;
                        rememberMe := remember |} c
         = (Normal (failure "Invalid credentials"), c')
       /\ sessionsOf c' = sessionsOf c)
  /\ (forall pw,
        returns_result (simulateLogin {| cred_email := e; cred_password := JString pw;
                                         rememberMe := remember |}) c)
  /\ (exists msg,
        simulateLogin {| cred_email := e; cred_password := JUndefined;
                         rememberMe := remember |} c = (Throw (TypeError msg), c))
  /\ (exists msg,
        simulateLogin {| cred_email := e; cred_password := JNull;
                         rememberMe := remember |} c = (Throw (TypeError msg), c)).
Proof.
  unfold returns_result, simulateLogin. intros Hfind. repeat split.
  - intros pw Hlen. apply Z.leb_gt in Hlen. revert Hfind Hlen.
    skip_delay. run_from c.
    all: intros Hfind Hlen; rewrite Hfind, Hlen; cbv beta iota delta [negb].
    all: eexists; split; reflexivity.
  - intros pw. revert Hfind. skip_delay. run_from c.
    all: intros Hfind; rewrite Hfind.
    all: destruct (6 <=? Z.of_nat (String.length pw)); cbv beta iota delta [negb].
    all: destruct (twoFactorEnabled u); eexists; eexists; reflexivity.
  - revert Hfind. skip_delay. run_from c.
    all: intros Hfind; rewrite Hfind; eexists; reflexivity.
  - revert Hfind. skip_delay. run_from c.
    all: intros Hfind; rewrite Hfind; eexists; reflexivity.
Qed.

Lemma login_password_check_witness :
  (exists c',
     simulateLogin {| cred_email := JString "bob@example.com";
                      cred_password := JString ""; rememberMe := None |}
       (simulator_with [alice; bob])
       = (Normal (failure "Invalid credentials"), c')
     /\ sessionsOf c' = sessionsOf (simulator_with [alice; bob])).
Proof.
  refine (proj1 (login_password_check (simulator_with [alice; bob])
                   (JString "bob@example.com") bob None _) "" _).
  - vm_compute. reflexivity.
  - vm_compute. reflexivity.
Defined.

(** C8 as stated fails for a missing password: Bob's email resolves, the
    password field is absent, and the call throws instead of returning a
    result. *)
Lemma login_missing_password_throws :
  find (fun user => strict_eq (user_email user) (JString "bob@example.com"))
       (usersOf (simulator_with [alice; bob])) = Some bob
  /\ ~ returns_result
         (simulateLogin {| cred_email := JString "bob@example.com";
                           cred_password := JUndefined; rememberMe := None |})
         (simulator_with [alice; bob]).
Proof.
  split; [vm_compute; reflexivity|].
  intros (r & c' & H). vm_compute in H. discriminate H.
Qed.

(** ** Two-factor verification *)

Lemma is_digit_range (ch : ascii) : is_digit ch = true <-> 48 <= code_of ch <= 57.
Proof. unfold is_digit, in_range. rewrite andb_true_iff, !Z.leb_le. tauto. Qed.

Lemma match_digits_spec (n : nat) (s : string) :
  match_digits n s = true <->
  String.length s = n /\ Forall (fun ch => 48 <= code_of ch <= 57) (list_ascii_of_string s).
Proof.
  revert s. induction n as [|n IH]; intros [|ch s]; cbn.
  - split; [auto | reflexivity].
  - split; [discriminate | intros [H _]; discriminate H].
  - split; [discriminate | intros [H _]; discriminate H].
  - rewrite andb_true_iff, is_digit_range, IH. split.
    + intros (Hch & Hlen & Hall). split; [now f_equal | now constructor].
    + intros (Hlen & Hall). inversion Hall; subst. injection Hlen as Hlen. auto.
Qed.

(** C3: for a [userId] that resolves to a user, [simulate2FA] returns
    success exactly when the code is six decimal digits; then it appends a
    session of that user that expires 30 minutes after the clock reading
    taken for it, and otherwise it returns the failure result and appends
    one [2fa-failure] event. Nothing about earlier logins is consulted: the
    statement holds from every configuration. *)
Theorem twofa_succeeds_iff_six_digits (c : Cfg) (userId : string) (u : User)
    (cd : TwoFactorCode) :
  find (fun user => String.eqb (user_id user) userId) (usersOf c) = Some u ->
  exists r c',
    simulate2FA userId cd c = (Normal r, c')
    /\ (success r = true <-> six_decimal_digits (code cd))
    /\ (six_decimal_digits (code cd) ->
        exists s,
          r = success_with u s
          /\ session_userId s = user_id u
          /\ expiresAt s = clock (rt c) (3 + ticks (rt c))%nat + 30 * 60 * 1000
          /\ sessionsOf c' = (sessionsOf c ++ [s])%list)
    /\ (~ six_decimal_digits (code cd) ->
        r = failure "Invalid 2FA code"
        /\ sessionsOf c' = sessionsOf c
        /\ exists e,
             eventsOf c' = (eventsOf c ++ [e])%list
             /\ ev_type e = twofa_failure
             /\ ev_success e = false
             /\ ev_error e = Some "Invalid 2FA code").
Proof.
  intros Hfind.
  assert (Hspec : match_digits 6 (code cd) = true <-> six_decimal_digits (code cd))
    by apply match_digits_spec.
  revert Hfind Hspec. generalize (six_decimal_digits (code cd)). intros P.
  unfold simulate2FA. skip_delay. run_from c.
  all: intros Hfind Hspec; rewrite Hfind.
  all: destruct (match_digits 6 _) eqn:Hcode; cbv beta iota delta [negb].
  all: eexists; eexists; split; [reflexivity|].
  all: first
    [ assert (HP : P) by (apply Hspec; reflexivity);
      split; [cbn; tauto|];
      split; [intros _ | intros Hno; contradiction];
      eexists; repeat split; exec; rewrite ?load_store_eq; reflexivity
    | assert (HnP : ~ P) by (intros HP; apply Hspec in HP; discriminate HP);
      split; [cbn; split; [discriminate | contradiction]|];
      split; [contradiction | intros _];
      split; [reflexivity|]; split; [reflexivity|];
      eexists; split; [exec; rewrite ?load_store_eq; reflexivity|];
      repeat split ].
Qed.

Lemma twofa_succeeds_iff_six_digits_witness :
  exists r c',
    simulate2FA "u1" {| code := "123456"; method := totp |} (simulator_with [alice; bob])
      = (Normal r, c')
    /\ (success r = true <-> six_decimal_digits "123456").
Proof.
  destruct (twofa_succeeds_iff_six_digits (simulator_with [alice; bob]) "u1" alice
              {| code := "123456"; method := totp |}) as (r & c' & Hrun & Hiff & _).
  - vm_compute. reflexivity.
  - exists r, c'. split; [exact Hrun | exact Hiff].
Defined.

(** ** Array searches *)

Lemma findIndex_from_spec {A} (p : A -> bool) (l : list A) (i : Z) :
  match find p l with
  | None => findIndex_from p l i = -1
  | Some x =>
      exists l1 l2, l = (l1 ++ x :: l2)%list
        /\ forallb (fun y => negb (p y)) l1 = true
        /\ p x = true
        /\ findIndex_from p l i = i + Z.of_nat (length l1)
  end.
Proof.
  revert i. induction l as [|y l IH]; intros i; cbn; [reflexivity|].
  destruct (p y) eqn:Hy.
  - exists [], l. cbn. repeat split; [exact Hy | lia].
  - specialize (IH (i + 1)). destruct (find p l) as [x|]; [|exact IH].
    destruct IH as (l1 & l2 & -> & Hl1 & Hx & Hidx).
    exists (y :: l1), l2. cbn. rewrite Hy, Hl1. repeat split; [exact Hx | lia].
Qed.

Lemma find_none_of_absent {A} (p : A -> bool) (l : list A) :
  (forall x, In x l -> p x = false) -> find p l = None.
Proof.
  induction l as [|y l IH]; intros H; cbn; [reflexivity|].
  rewrite (H y (or_introl eq_refl)). apply IH. intros x Hx. apply H. now right.
Qed.

Lemma splice1_middle {A} (l1 l2 : list A) (x : A) :
  splice1 (Z.of_nat (length l1)) (l1 ++ x :: l2) = (l1 ++ l2)%list.
Proof.
  unfold splice1. rewrite Nat2Z.id.
  rewrite take_app_length. f_equal.
  change (S (length l1)) with (1 + length l1)%nat.
  rewrite Nat.add_comm, <- drop_drop, drop_app_length. reflexivity.
Qed.

(** ** Lookups that fail *)

(** C10: [simulateLogout] of a session id that no active session carries
    returns the "Session not found" failure, and [simulate2FA] for a user id
    that no user carries returns the "User not found" failure; both leave
    the simulator and the runtime exactly as they were, event log
    included. *)
Theorem unknown_id_changes_nothing (c : Cfg) :
  (forall sessionId,
     (forall s, In s (sessionsOf c) -> session_id s <> sessionId) ->
     simulateLogout sessionId c = (Normal (failure "Session not found"), c))
  /\ (forall userId cd,
        (forall u, In u (usersOf c) -> user_id u <> userId) ->
        simulate2FA userId cd c = (Normal (failure "User not found"), c)).
Proof.
  split.
  - intros sessionId Habsent.
    assert (Hnone : find (fun s => String.eqb (session_id s) sessionId) (sessionsOf c) = None).
    { apply find_none_of_absent. intros s Hs. apply String.eqb_neq. now apply Habsent. }
    pose proof (findIndex_from_spec (fun s => String.eqb (session_id s) sessionId)
                  (sessionsOf c) 0) as Hidx.
    rewrite Hnone in Hidx. fold (findIndex (fun s => String.eqb (session_id s) sessionId)
                                   (sessionsOf c)) in Hidx.
    unfold simulateLogout. skip_delay. revert Hidx. clear. run_from c.
    all: intros Hidx; rewrite Hidx; reflexivity.
  - intros userId cd Habsent.
    assert (Hnone : find (fun u => String.eqb (user_id u) userId) (usersOf c) = None).
    { apply find_none_of_absent. intros u Hu. apply String.eqb_neq. now apply Habsent. }
    unfold simulate2FA. skip_delay. revert Hnone. clear. run_from c.
    all: intros Hnone; rewrite Hnone; reflexivity.
Qed.

Lemma unknown_id_changes_nothing_witness :
  simulateLogout "no-such-session" (simulator_with [alice; bob])
    = (Normal (failure "Session not found"), simulator_with [alice; bob])
  /\ simulate2FA "no-such-user" {| code := "123456"; method := totp |}
       (simulator_with [alice; bob])
     = (Normal (failure "User not found"), simulator_with [alice; bob]).
Proof.
  split.
  - apply (proj1 (unknown_id_changes_nothing (simulator_with [alice; bob]))).
    vm_compute. intros s [].
  - apply (proj2 (unknown_id_changes_nothing (simulator_with [alice; bob]))).
    vm_compute. intros u [<-|[<-|[]]]; discriminate.
Defined.

(** ** Password reset *)

(** C6: [simulatePasswordResetRequest] returns [{ success: true }], with no
    user, session, error or token in it, from every configuration and for
    every request; so a run with an email that resolves and a run with one
    that does not return the same value. *)
Theorem reset_request_result_is_constant (c1 c2 : Cfg) (known unknown : PasswordResetRequest) :
  fst (simulatePasswordResetRequest known c1) = Normal success_only
  /\ fst (simulatePasswordResetRequest unknown c2) = Normal success_only
  /\ fst (simulatePasswordResetRequest known c1)
     = fst (simulatePasswordResetRequest unknown c2).
Proof.
  assert (H : forall c req, fst (simulatePasswordResetRequest req c) = Normal success_only).
  { intros c req. unfold simulatePasswordResetRequest. skip_delay. run_from c.
    all: destruct (find _ _); reflexivity. }
  rewrite !H. auto.
Qed.

(** ** The event log *)

(** C4 as stated fails on a successful login: Bob's login appends two
    events, [session-created] and then [login-success]. *)
Lemma successful_login_appends_two_events :
  exists s c',
    simulateLogin (credentials "bob@example.com" "secret1") (simulator_with [alice; bob])
      = (Normal (success_with bob s), c')
    /\ eventsOf (simulator_with [alice; bob]) = []
    /\ map ev_type (eventsOf c') = [session_created; login_success]
    /\ length (eventsOf c') <> (length (eventsOf (simulator_with [alice; bob])) + 1)%nat.
Proof.
  eexists. eexists. split; [vm_compute; reflexivity|].
  split; [vm_compute; reflexivity|]. split; [vm_compute; reflexivity|].
  vm_compute. discriminate.
Qed.

(** C4, amended: every call appends its events to the same log array, the
    operation's own event last. A successful [simulateLogin], [simulate2FA]
    or [simulateOAuthCallback] appends exactly two, [session-created] and
    then its own; a failed or challenged login, a failed 2FA for a known
    user, a password-reset request or confirmation, a successful logout, a
    failed session check, [start] and [stop] append exactly one; a 2FA for
    an unknown user, a logout of an unknown session and a successful session
    check append none; [reset] replaces the log by an empty one. *)
Theorem events_appended_per_call (c : Cfg) :
  (forall creds,
     match simulateLogin creds c with
     | (Normal r, c') => appended c c' (login_events r)
     | (Throw _, c') => c' = c
     end)
  /\ (forall userId cd,
        exists r c',
          simulate2FA userId cd c = (Normal r, c')
          /\ appended c c'
               (if success r then [session_created; twofa_success]
                else match find (fun user => String.eqb (user_id user) userId) (usersOf c) with
                     | Some _ => [twofa_failure]
                     | None => []
                     end))
  /\ (forall callback,
        exists r c',
          simulateOAuthCallback callback c = (Normal r, c')
          /\ success r = true
          /\ appended c c' [session_created; oauth_callback])
  /\ (forall request,
        exists r c',
          simulatePasswordResetRequest request c = (Normal r, c')
          /\ appended c c' [password_reset_requested])
  /\ (forall confirm,
        exists r c',
          simulatePasswordResetConfirm confirm c = (Normal r, c')
          /\ appended c c' [password_reset_completed])
  /\ (forall sessionId,
        exists r c',
          simulateLogout sessionId c = (Normal r, c')
          /\ appended c c' (if success r then [logout] else []))
  /\ (forall sessionId,
        exists r c',
          checkSession sessionId c = (Normal r, c')
          /\ appended c c' (check_events r))
  /\ (exists c', start c = (Normal tt, c') /\ appended c c' [login_attempt])
  /\ (exists c', stop c = (Normal tt, c') /\ appended c c' [logout])
  /\ (exists c', reset c = (Normal tt, c') /\ eventsOf c' = []).
Proof.
  repeat split.
  - intros [e [| |pw] remember]; unfold simulateLogin; skip_delay; run_from c.
    all: destruct (find _ _) as [u|]; try reflexivity.
    all: try (destruct (6 <=? Z.of_nat (String.length pw)); cbv beta iota delta [negb];
              try destruct (twoFactorEnabled u)).
    all: show_appended.
  - intros userId cd. unfold simulate2FA. skip_delay. run_from c.
    all: destruct (find _ _) as [u|];
      [destruct (match_digits 6 _); cbv beta iota delta [negb]|].
    all: eexists; eexists; (split; [reflexivity|]); show_appended.
  - intros callback. unfold simulateOAuthCallback. skip_delay. run_from c.
    all: destruct (find _ _) as [u|]; settle_names.
    all: eexists; eexists; (split; [reflexivity|]); (split; [reflexivity|]); show_appended.
  - intros request. unfold simulatePasswordResetRequest. skip_delay. run_from c.
    all: destruct (find _ _) as [u|].
    all: eexists; eexists; (split; [reflexivity|]); show_appended.
  - intros confirm. unfold simulatePasswordResetConfirm. skip_delay. run_from c.
    all: eexists; eexists; (split; [reflexivity|]); show_appended.
  - intros sessionId. unfold simulateLogout. skip_delay. run_from c.
    all: destruct (findIndex _ _ =? -1).
    all: eexists; eexists; (split; [reflexivity|]); show_appended.
  - intros sessionId. unfold checkSession. skip_delay. run_from c.
    all: destruct (find _ (load sa ls)) as [s|];
      [destruct (_ <? _); [|destruct (find _ _) as [u|]]|].
    all: eexists; eexists; (split; [reflexivity|]); show_appended.
  - run_from c. all: eexists; (split; [reflexivity|]); show_appended.
  - run_from c. all: eexists; (split; [reflexivity|]); show_appended.
  - run_from c. all: settle_names.
    all: eexists; (split; [reflexivity|]); exec; apply load_store_eq.
Qed.

(** ** Construction *)

(** C5, what the code does: constructed without [mockUsers], the
    directory holds exactly three users, john, jane and admin in that order,
    but john as well as admin has [twoFactorEnabled = true] and jane alone
    has it [false], where the claim, like the examples of the repository
    that log john in directly, expects john without two-factor. *)
Theorem default_users_of_new_simulator (o : SimulatorOptions) (r : Runtime) :
  mockUsers o = None ->
  exists c,
    new_AuthFlowSimulator o r = (Normal tt, c)
    /\ map user_email (usersOf c)
       = ["john@example.com"; "jane@example.com"; "admin@example.com"]
    /\ map twoFactorEnabled (usersOf c) = [true; false; true]
    /\ length (usersOf c) = 3%nat
    /\ length (List.filter twoFactorEnabled (usersOf c)) = 2%nat
    /\ length (List.filter (fun u => negb (twoFactorEnabled u)) (usersOf c)) = 1%nat.
Proof.
  intros Hmock. destruct o as [oc om ol od]. cbn in Hmock. subst om.
  destruct r as [ua sa ea nl en dr ck tk co]. exec. settle_names.
  eexists. split; [reflexivity|].
  repeat split; exec; rewrite load_store_eq; reflexivity.
Qed.

Lemma default_users_of_new_simulator_witness :
  exists c,
    new_AuthFlowSimulator no_options (sample_runtime []) = (Normal tt, c)
    /\ map twoFactorEnabled (usersOf c) = [true; false; true].
Proof.
  destruct (default_users_of_new_simulator no_options (sample_runtime []) eq_refl)
    as (c & Hrun & _ & H2fa & _).
  exists c. split; [exact Hrun | exact H2fa].
Defined.

(** On the default simulator it is not the case that two of the default
    users have two-factor off and one has it on. *)
Lemma default_users_two_factor_counts :
  ~ (length (List.filter (fun u => negb (twoFactorEnabled u)) (usersOf default_simulator)) = 2%nat
     /\ length (List.filter twoFactorEnabled (usersOf default_simulator)) = 1%nat).
Proof. intros [H _]. vm_compute in H. discriminate H. Qed.

(** The basic login of the README, john on a default simulator, is
    answered with the two-factor challenge and opens no session. *)
Lemma default_john_gets_the_challenge :
  exists john others c',
    usersOf default_simulator = john :: others
    /\ user_email john = "john@example.com"
    /\ simulateLogin {| cred_email := JString "john@example.com";
                        cred_password := JString "password123";
                        rememberMe := Some true |} default_simulator
       = (Normal (twofa_challenge john), c')
    /\ sessionsOf c' = [].
Proof.
  eexists. eexists. eexists.
  split; [vm_compute; reflexivity|]. split; [reflexivity|].
  split; vm_compute; reflexivity.
Qed.

(** ** Session expiry *)






(** ** Introspection *)

(** C9 fails for [getState]: the state it returns carries the simulator's
    own three array references, so a push or a truncation done on a
    returned array is done on the simulator's array. *)
Theorem getState_hands_out_the_live_arrays (c : Cfg) (s : AuthSession) :
  exists st,
    getState c = (Normal st, c)
    /\ users st = users (state (this c))
    /\ sessions st = sessions (state (this c))
    /\ events st = events (state (this c))
    /\ (exists c2, external_push_session (sessions st) s c = (Normal tt, c2)
                   /\ sessionsOf c2 = (sessionsOf c ++ [s])%list)
    /\ (exists c2, external_clear_users (users st) c = (Normal tt, c2)
                   /\ usersOf c2 = [])
    /\ (exists c2, external_clear_events (events st) c = (Normal tt, c2)
                   /\ eventsOf c2 = []).
Proof.
  run_from c.
  all: eexists; split; [reflexivity|]; repeat split.
  all: eexists; (split; [reflexivity|]); exec; apply load_store_eq.
Qed.

(** What follows from it: Bob can log in; after a caller empties the
    [users] array that [getState] returned, the same login is refused. *)
Lemma login_refused_after_outside_truncation :
  exists st c1 c2 s,
    getState (simulator_with [alice; bob]) = (Normal st, c1)
    /\ fst (simulateLogin (credentials "bob@example.com" "secret1") c1)
       = Normal (success_with bob s)
    /\ external_clear_users (users st) c1 = (Normal tt, c2)
    /\ fst (simulateLogin (credentials "bob@example.com" "secret1") c2)
       = Normal (failure "Invalid credentials").
Proof.
  eexists. eexists. eexists. eexists.
  split; [vm_compute; reflexivity|].
  split; [vm_compute; reflexivity|].
  split; [vm_compute; reflexivity|].
  vm_compute. reflexivity.
Qed.

(** * Further properties of the engine *)

Lemma find_app_absent {A} (p : A -> bool) (l : list A) (x : A) :
  (forall y, In y l -> p y = false) ->
  find p (l ++ [x]) = if p x then Some x else None.
Proof.
  induction l as [|y l IH]; intros H; cbn; [reflexivity|].
  rewrite (H y (or_introl eq_refl)). apply IH. intros z Hz. apply H. now right.
Qed.

(** ** Sessions through their life *)

(** X1. A session that [simulateLogin] returned checks out: when its id was
    not already in use, its user is the one the id lookup finds, and the
    clock has not passed its expiry, [checkSession] on its id returns
    success with the same user and session, and only reads the clock. *)
Theorem session_from_login_checks_out (c c1 : Cfg) (creds : LoginCredentials)
    (u : User) (s : AuthSession) :
  simulateLogin creds c = (Normal (success_with u s), c1) ->
  (forall x, In x (sessionsOf c) -> session_id x <> session_id s) ->
  find (fun user => String.eqb (user_id user) (user_id u)) (usersOf c) = Some u ->
  clock (rt c1) (ticks (rt c1)) <= expiresAt s ->
  checkSession (session_id s) c1 = (Normal (success_with u s), with_rt bump_ticks c1).
Proof.
  intros Hlogin Hfresh Hid Hlive.
  assert (Hnone : forall x, In x (sessionsOf c) ->
            String.eqb (session_id x) (session_id s) = false).
  { intros x Hx. apply String.eqb_neq. now apply Hfresh. }
  pose proof (find_app_absent (fun x => String.eqb (session_id x) (session_id s))
                (sessionsOf c) s Hnone) as Hfind.
  cbn beta in Hfind. rewrite String.eqb_refl in Hfind.
  apply Z.ltb_ge in Hlive.
  clear Hfresh Hnone. revert Hlogin Hid Hlive Hfind.
  unfold simulateLogin, checkSession. skip_delay.
  destruct creds as [e pw remember].
  run_from c.
  all: destruct (find _ (load ua lu)) as [v|]; [|discriminate].
  all: destruct pw as [| |pw]; try discriminate.
  all: destruct (6 <=? Z.of_nat (String.length pw)); cbv beta iota delta [negb]; [|discriminate].
  all: destruct (twoFactorEnabled v); [discriminate|].
  all: intros Hlogin; injection Hlogin as -> <- <-.
  all: intros Hid Hlive Hfind; rewrite delay_run; cbv beta iota.
  all: rewrite load_store_eq, Hfind; cbv beta iota; rewrite Hlive, Hid; reflexivity.
Qed.

Lemma session_from_login_checks_out_witness :
  exists s c1,
    simulateLogin (credentials "bob@example.com" "secret1") (simulator_with [alice; bob])
      = (Normal (success_with bob s), c1)
    /\ checkSession (session_id s) c1 = (Normal (success_with bob s), with_rt bump_ticks c1).
Proof.
  eexists. eexists. split; [vm_compute; reflexivity|].
  apply (session_from_login_checks_out (simulator_with [alice; bob]) _
           (credentials "bob@example.com" "secret1") bob _).
  - vm_compute. reflexivity.
  - vm_compute. intros x [].
  - vm_compute. reflexivity.
  - vm_compute. discriminate.
Defined.

Lemma first_match_split {A} (p : A -> bool) (l : list A) (x : A) :
  find p l = Some x ->
  exists l1 l2,
    l = (l1 ++ x :: l2)%list
    /\ (forall y, In y l1 -> p y = false)
    /\ p x = true
    /\ findIndex p l = Z.of_nat (length l1).
Proof.
  intros Hfind. pose proof (findIndex_from_spec p l 0) as H. rewrite Hfind in H.
  destruct H as (l1 & l2 & Hl & Hl1 & Hx & Hidx).
  exists l1, l2. repeat split; [exact Hl | | exact Hx | exact Hidx].
  intros y Hy. rewrite forallb_forall in Hl1. apply negb_true_iff. now apply Hl1.
Qed.

Lemma find_none_app {A} (p : A -> bool) (l1 l2 : list A) :
  (forall y, In y (l1 ++ l2) -> p y = false) -> find p (l1 ++ l2) = None.
Proof. apply find_none_of_absent. Qed.

(** X2. [simulateLogout] of an id that some active session carries removes
    the first session with that id, in place, and nothing else: the
    sessions before and after it stay in order, the users are untouched,
    and one [logout] event carrying the id is appended. *)
Theorem logout_removes_the_first_match (c : Cfg) (sessionId : string) (s : AuthSession) :
  find (fun x => String.eqb (session_id x) sessionId) (sessionsOf c) = Some s ->
  exists c' l1 l2 e,
    simulateLogout sessionId c = (Normal success_only, c')
    /\ sessionsOf c = (l1 ++ s :: l2)%list
    /\ (forall x, In x l1 -> session_id x <> sessionId)
    /\ sessionsOf c' = (l1 ++ l2)%list
    /\ sessions (state (this c')) = sessions (state (this c))
    /\ usersOf c' = usersOf c
    /\ eventsOf c' = (eventsOf c ++ [e])%list
    /\ ev_type e = logout
    /\ ev_success e = true
    /\ ev_data e = [("sessionId", JString sessionId)].
Proof.
  intros Hfind.
  destruct (first_match_split _ _ _ Hfind) as (l1 & l2 & Hsplit & Hl1 & _ & Hidx).
  assert (Hbefore : forall x, In x l1 -> session_id x <> sessionId).
  { intros x Hx. apply String.eqb_neq. now apply Hl1. }
  assert (Hfound : (Z.of_nat (length l1) =? -1) = false) by (apply Z.eqb_neq; lia).
  pose proof (splice1_middle l1 l2 s) as Hsplice. rewrite <- Hsplit in Hsplice.
  clear Hfind Hl1. revert Hsplit Hidx Hsplice.
  unfold simulateLogout. skip_delay. run_from c.
  all: intros Hsplit Hidx Hsplice; rewrite Hidx, Hfound, Hsplice.
  all: eexists; exists l1, l2; eexists.
  all: split; [reflexivity|]; split; [exact Hsplit|]; split; [exact Hbefore|].
  all: split; [exec; apply load_store_eq|].
  all: split; [reflexivity|]; split; [reflexivity|].
  all: split; [exec; rewrite load_store_eq; reflexivity|].
  all: repeat split.
Qed.

Lemma logout_removes_the_first_match_witness :
  exists c' l1 l2 e,
    simulateLogout "s2"
      (simulator_with_sessions [alice; bob]
         [sample_session "s1" "u2" 1800000000000;
          sample_session "s2" "u1" 1800000000000;
          sample_session "s2" "u2" 1800000000000]) = (Normal success_only, c')
    /\ sessionsOf (simulator_with_sessions [alice; bob]
                     [sample_session "s1" "u2" 1800000000000;
                      sample_session "s2" "u1" 1800000000000;
                      sample_session "s2" "u2" 1800000000000])
       = (l1 ++ sample_session "s2" "u1" 1800000000000 :: l2)%list
    /\ (forall x, In x l1 -> session_id x <> "s2")
    /\ sessionsOf c' = (l1 ++ l2)%list
    /\ sessions (state (this c'))
       = sessions (state (this (simulator_with_sessions [alice; bob]
                                  [sample_session "s1" "u2" 1800000000000;
                                   sample_session "s2" "u1" 1800000000000;
                                   sample_session "s2" "u2" 1800000000000])))
    /\ usersOf c'
       = usersOf (simulator_with_sessions [alice; bob]
                    [sample_session "s1" "u2" 1800000000000;
                     sample_session "s2" "u1" 1800000000000;
                     sample_session "s2" "u2" 1800000000000])
    /\ eventsOf c'
       = (eventsOf (simulator_with_sessions [alice; bob]
                      [sample_session "s1" "u2" 1800000000000;
                       sample_session "s2" "u1" 1800000000000;
                       sample_session "s2" "u2" 1800000000000]) ++ [e])%list
    /\ ev_type e = logout
    /\ ev_success e = true
    /\ ev_data e = [("sessionId", JString "s2")].
Proof.
  apply logout_removes_the_first_match. vm_compute. reflexivity.
Defined.

(** X3. After the logout of a session whose id no other active session
    shares, [checkSession] on that id finds nothing: it returns the
    "Session not found" failure and leaves the remaining sessions alone. *)
Theorem logout_then_check_finds_nothing (c : Cfg) (s : AuthSession) :
  NoDup (map session_id (sessionsOf c)) ->
  In s (sessionsOf c) ->
  exists c1 c2,
    simulateLogout (session_id s) c = (Normal success_only, c1)
    /\ ~ In s (sessionsOf c1)
    /\ checkSession (session_id s) c1 = (Normal (failure "Session not found"), c2)
    /\ sessionsOf c2 = sessionsOf c1.
Proof.
  intros Hnd Hin.
  pose proof (find_first_of_distinct session_id _ s Hnd Hin) as Hfind. cbn beta in Hfind.
  destruct (first_match_split _ _ _ Hfind) as (l1 & l2 & Hsplit & Hl1 & _ & Hidx).
  assert (Hfound : (Z.of_nat (length l1) =? -1) = false) by (apply Z.eqb_neq; lia).
  pose proof (splice1_middle l1 l2 s) as Hsplice. rewrite <- Hsplit in Hsplice.
  assert (Hrest : forall x, In x (l1 ++ l2) ->
            String.eqb (session_id x) (session_id s) = false).
  { rewrite Hsplit, map_app in Hnd. cbn in Hnd.
    apply NoDup_app in Hnd as (_ & Hleft & Hright).
    apply NoDup_cons in Hright as (Hright & _).
    intros x Hx. apply String.eqb_neq. intros Heq.
    apply in_app_or in Hx as [Hx|Hx].
    - apply (Hleft (session_id s)); [|left].
      rewrite <- Heq. apply list_elem_of_In, in_map, Hx.
    - apply Hright. rewrite <- Heq. apply list_elem_of_In, in_map, Hx. }
  assert (Hgone : ~ In s (l1 ++ l2)).
  { intros Hs. apply Hrest in Hs. rewrite String.eqb_refl in Hs. discriminate Hs. }
  pose proof (find_none_app _ l1 l2 Hrest) as Hnone.
  clear Hnd Hin Hfind Hl1 Hsplit Hrest. revert Hidx Hsplice Hnone.
  unfold simulateLogout, checkSession. skip_delay. run_from c.
  all: intros Hidx Hsplice Hnone; rewrite Hidx, Hfound, Hsplice.
  all: eexists; eexists; split; [reflexivity|].
  all: split; [exec; rewrite load_store_eq; exact Hgone|].
  all: rewrite delay_run; cbv beta iota; rewrite load_store_eq, Hnone.
  all: split; [reflexivity | exec; rewrite ?load_store_eq; reflexivity].
Qed.

Lemma logout_then_check_finds_nothing_witness :
  exists c1 c2,
    simulateLogout "s1"
      (simulator_with_sessions [alice; bob]
         [sample_session "s1" "u2" 1800000000000;
          sample_session "s2" "u1" 1800000000000]) = (Normal success_only, c1)
    /\ ~ In (sample_session "s1" "u2" 1800000000000) (sessionsOf c1)
    /\ checkSession "s1" c1 = (Normal (failure "Session not found"), c2)
    /\ sessionsOf c2 = sessionsOf c1.
Proof.
  apply (logout_then_check_finds_nothing
           (simulator_with_sessions [alice; bob]
              [sample_session "s1" "u2" 1800000000000;
               sample_session "s2" "u1" 1800000000000])
           (sample_session "s1" "u2" 1800000000000)).
  - vm_compute. apply NoDup_cons_2; [set_unfold; intuition discriminate|].
    apply NoDup_cons_2; [set_unfold; tauto | apply NoDup_nil_2].
  - vm_compute. auto.
Defined.

(** X4. [checkSession] on an id that no active session carries returns the
    "Session not found" failure and, unlike a logout of an unknown id,
    records it: one [session-expired] event with that reason is appended,
    while simulator, users and sessions stay as they were. *)
Theorem check_of_unknown_session (c : Cfg) (sessionId : string) :
  (forall x, In x (sessionsOf c) -> session_id x <> sessionId) ->
  exists c' e,
    checkSession sessionId c = (Normal (failure "Session not found"), c')
    /\ this c' = this c
    /\ sessionsOf c' = sessionsOf c
    /\ usersOf c' = usersOf c
    /\ eventsOf c' = (eventsOf c ++ [e])%list
    /\ ev_type e = session_expired
    /\ ev_success e = false
    /\ ev_error e = Some "Session not found"
    /\ ev_data e = [("sessionId", JString sessionId)].
Proof.
  intros Habsent.
  assert (Hnone : find (fun x => String.eqb (session_id x) sessionId) (sessionsOf c) = None).
  { apply find_none_of_absent. intros x Hx. apply String.eqb_neq. now apply Habsent. }
  clear Habsent. revert Hnone. unfold checkSession. skip_delay. run_from c.
  all: intros Hnone; rewrite Hnone.
  all: eexists; eexists; split; [reflexivity|].
  all: split; [reflexivity|]; split; [reflexivity|]; split; [reflexivity|].
  all: split; [exec; rewrite load_store_eq; reflexivity|].
  all: repeat split.
Qed.

Lemma check_of_unknown_session_witness :
  exists c' e,
    checkSession "nope" (simulator_with [alice; bob])
      = (Normal (failure "Session not found"), c')
    /\ this c' = this (simulator_with [alice; bob])
    /\ sessionsOf c' = sessionsOf (simulator_with [alice; bob])
    /\ usersOf c' = usersOf (simulator_with [alice; bob])
    /\ eventsOf c' = (eventsOf (simulator_with [alice; bob]) ++ [e])%list
    /\ ev_type e = session_expired
    /\ ev_success e = false
    /\ ev_error e = Some "Session not found"
    /\ ev_data e = [("sessionId", JString "nope")].
Proof.
  apply check_of_unknown_session. vm_compute. intros x [].
Defined.

(** ** OAuth callbacks *)

(** X5. For a provider name of the embedding, that is, of code units below
    256 and so without surrogates, [simulateOAuthCallback] succeeds with a
    new session of the user filed under [oauth-<provider>@example.com]: the user the email
    lookup finds, with the directory unchanged, or else a new user appended
    to the directory, named after the provider, verified and without
    two-factor. *)
Theorem oauth_files_the_user_under_the_provider (c : Cfg) (callback : OAuthCallback) :
  exists u s c',
    simulateOAuthCallback callback c = (Normal (success_with u s), c')
    /\ session_userId s = user_id u
    /\ sessionsOf c' = (sessionsOf c ++ [s])%list
    /\ match find (fun user => strict_eq (user_email user)
                                 (JString ("oauth-" +:+ provider callback +:+ "@example.com")))
                  (usersOf c) with
       | Some v => u = v /\ usersOf c' = usersOf c
       | None =>
           usersOf c' = (usersOf c ++ [u])%list
           /\ user_email u = "oauth-" +:+ provider callback +:+ "@example.com"
           /\ user_name u = provider callback +:+ " User"
           /\ twoFactorEnabled u = false
           /\ emailVerified u = true
       end.
Proof.
  unfold simulateOAuthCallback. skip_delay. run_from c.
  all: destruct (find _ _) as [v|]; settle_names.
  all: eexists; eexists; eexists; split; [reflexivity|].
  all: split; [reflexivity|].
  all: split; [exec; rewrite load_store_eq; reflexivity|].
  all: repeat split; exec; rewrite ?load_store_eq; reflexivity.
Qed.

(** X6. For a provider name of the embedding (code units below 256, so
    without surrogates), a second callback for the same provider, whatever
    its [code] and [state], is answered for the same user and adds no user:
    the synthetic account is created once. *)
Theorem oauth_account_is_created_once (c : Cfg) (first second : OAuthCallback) :
  provider first = provider second ->
  exists u s1 s2 c1 c2,
    simulateOAuthCallback first c = (Normal (success_with u s1), c1)
    /\ simulateOAuthCallback second c1 = (Normal (success_with u s2), c2)
    /\ usersOf c2 = usersOf c1
    /\ sessionsOf c2 = (sessionsOf c ++ [s1; s2])%list.
Proof.
  destruct first as [code1 state1 p], second as [code2 state2 p2]. cbn. intros <-.
  pose proof (fun l (u : User) H =>
                find_app_absent
                  (fun user => strict_eq (user_email user)
                                 (JString ("oauth-" +:+ p +:+ "@example.com"))) l u H)
    as Hnew.
  revert Hnew. unfold simulateOAuthCallback. skip_delay. run_from c.
  all: intros Hnew; destruct (find _ _) as [v|] eqn:Hfind; settle_names.
  all: eexists; eexists; eexists; eexists; eexists; split; [reflexivity|].
  all: rewrite delay_run; cbv beta iota; rewrite ?load_store_eq.
  all: try rewrite Hfind.
  all: try (rewrite Hnew;
            [ cbn [strict_eq user_email]; rewrite String.eqb_refl
            | intros y Hy; exact (find_none _ _ Hfind y Hy) ]).
  all: split; [reflexivity|].
  all: split; exec; rewrite ?load_store_eq, <- ?app_assoc; reflexivity.
Qed.

Lemma oauth_account_is_created_once_witness :
  exists u s1 s2 c1 c2,
    simulateOAuthCallback {| cb_code := "c1"; cb_state := "x"; provider := "github" |}
      (simulator_with [alice; bob]) = (Normal (success_with u s1), c1)
    /\ simulateOAuthCallback {| cb_code := "c2"; cb_state := "y"; provider := "github" |} c1
       = (Normal (success_with u s2), c2)
    /\ usersOf c2 = usersOf c1
    /\ sessionsOf c2 = (sessionsOf (simulator_with [alice; bob]) ++ [s1; s2])%list.
Proof.
  apply (oauth_account_is_created_once (simulator_with [alice; bob])
           {| cb_code := "c1"; cb_state := "x"; provider := "github" |}
           {| cb_code := "c2"; cb_state := "y"; provider := "github" |}).
  reflexivity.
Defined.

(** ** What the operations leave alone *)

(** X7. Users are never removed or rewritten by an operation: login, 2FA,
    password-reset request and confirmation, logout and session check leave
    the user directory, the configuration, the options and the running flag
    exactly as they were, whatever they return, and also when login
    throws. *)
Theorem operations_keep_the_directory (c : Cfg) :
  (forall creds, same_directory c (snd (simulateLogin creds c)))
  /\ (forall userId cd, same_directory c (snd (simulate2FA userId cd c)))
  /\ (forall request, same_directory c (snd (simulatePasswordResetRequest request c)))
  /\ (forall confirm, same_directory c (snd (simulatePasswordResetConfirm confirm c)))
  /\ (forall sessionId, same_directory c (snd (simulateLogout sessionId c)))
  /\ (forall sessionId, same_directory c (snd (checkSession sessionId c))).
Proof.
  unfold same_directory. repeat apply conj.
  - intros [e [| |pw] remember]; unfold simulateLogin; skip_delay; run_from c.
    all: destruct (find _ _) as [u|];
      try (destruct (6 <=? Z.of_nat (String.length pw)); cbv beta iota delta [negb];
           try destruct (twoFactorEnabled u)).
    all: repeat split.
  - intros userId cd. unfold simulate2FA. skip_delay. run_from c.
    all: destruct (find _ _) as [u|];
      [destruct (match_digits 6 _); cbv beta iota delta [negb]|].
    all: repeat split.
  - intros request. unfold simulatePasswordResetRequest. skip_delay. run_from c.
    all: destruct (find _ _) as [u|]; repeat split.
  - intros confirm. unfold simulatePasswordResetConfirm. skip_delay. run_from c.
    all: repeat split.
  - intros sessionId. unfold simulateLogout. skip_delay. run_from c.
    all: destruct (findIndex _ _ =? -1); repeat split.
  - intros sessionId. unfold checkSession. skip_delay. run_from c.
    all: destruct (find _ (load sa ls)) as [s|];
      [destruct (_ <? _); [|destruct (find _ _) as [u|]]|].
    all: repeat split.
Qed.

(** X8. [reset] starts over from the three default users, whatever the
    simulator was built with: no session and no event remain, while the
    configuration, the options and the running flag are kept; afterwards
    [checkSession] knows no session id. *)
Theorem reset_starts_over (c : Cfg) :
  exists c',
    reset c = (Normal tt, c')
    /\ map user_email (usersOf c')
       = ["john@example.com"; "jane@example.com"; "admin@example.com"]
    /\ map twoFactorEnabled (usersOf c') = [true; false; true]
    /\ sessionsOf c' = []
    /\ eventsOf c' = []
    /\ config (state (this c')) = config (state (this c))
    /\ isRunning (state (this c')) = isRunning (state (this c))
    /\ options (this c') = options (this c)
    /\ forall sessionId,
         fst (checkSession sessionId c') = Normal (failure "Session not found").
Proof.
  run_from c. all: settle_names.
  all: eexists; split; [reflexivity|].
  all: split; [exec; rewrite load_store_eq; reflexivity|].
  all: split; [exec; rewrite load_store_eq; reflexivity|].
  all: split; [exec; apply load_store_eq|].
  all: split; [exec; apply load_store_eq|].
  all: split; [reflexivity|]; split; [reflexivity|]; split; [reflexivity|].
  all: intros sessionId; rewrite delay_run; cbv beta iota.
  all: rewrite load_store_eq; reflexivity.
Qed.

(** ** Login: the remaining paths *)

(** X9. A login with an email that resolves to no user never looks at the
    password, so it returns a result even when the password is missing; the
    result is the same generic failure a wrong password gets, and the reason
    "User not found" only goes into the one [login-failure] event. *)
Theorem login_with_unknown_email (c : Cfg) (creds : LoginCredentials) :
  find (fun user => strict_eq (user_email user) (cred_email creds)) (usersOf c) = None ->
  exists c' e,
    simulateLogin creds c = (Normal (failure "Invalid credentials"), c')
    /\ sessionsOf c' = sessionsOf c
    /\ eventsOf c' = (eventsOf c ++ [e])%list
    /\ ev_type e = login_failure
    /\ ev_success e = false
    /\ ev_error e = Some "User not found"
    /\ ev_data e = [("email", cred_email creds)].
Proof.
  destruct creds as [e pw remember]. unfold simulateLogin. skip_delay. run_from c.
  all: intros Hnone; rewrite Hnone.
  all: eexists; eexists; split; [reflexivity|]; split; [reflexivity|].
  all: split; [exec; rewrite load_store_eq; reflexivity|].
  all: repeat split.
Qed.

Lemma login_with_unknown_email_witness :
  exists c' e,
    simulateLogin {| cred_email := JString "nobody@x.com"; cred_password := JUndefined;
                     rememberMe := None |} (simulator_with [alice; bob])
      = (Normal (failure "Invalid credentials"), c')
    /\ sessionsOf c' = sessionsOf (simulator_with [alice; bob])
    /\ eventsOf c' = (eventsOf (simulator_with [alice; bob]) ++ [e])%list
    /\ ev_type e = login_failure
    /\ ev_success e = false
    /\ ev_error e = Some "User not found"
    /\ ev_data e = [("email", JString "nobody@x.com")].
Proof.
  apply (login_with_unknown_email (simulator_with [alice; bob])
           {| cred_email := JString "nobody@x.com"; cred_password := JUndefined;
              rememberMe := None |}).
  vm_compute. reflexivity.
Defined.

(** X10. The lifetime of a session from [simulateLogin] depends on
    [rememberMe] alone: 30 days after the clock reading taken for it when
    [rememberMe] is true, 30 minutes when it is false or absent, whatever
    [sessionTimeout] the configuration holds; the session carries the fixed
    device description and a refresh token. *)
Theorem login_session_lifetime (c c1 : Cfg) (creds : LoginCredentials)
    (u : User) (s : AuthSession) :
  simulateLogin creds c = (Normal (success_with u s), c1) ->
  expiresAt s
    = clock (rt c) (3 + ticks (rt c))%nat
      + (match rememberMe creds with
         | Some true => 30 * 24 * 60 * 60 * 1000
         | _ => 30 * 60 * 1000
         end)
  /\ session_createdAt s = clock (rt c) (4 + ticks (rt c))%nat
  /\ deviceInfo s = Some simulator_device
  /\ refreshToken s <> None.
Proof.
  destruct creds as [e pw remember]. unfold simulateLogin. skip_delay. run_from c.
  all: destruct (find _ _) as [v|]; [|discriminate].
  all: destruct pw as [| |pw]; try discriminate.
  all: destruct (6 <=? Z.of_nat (String.length pw)); cbv beta iota delta [negb]; [|discriminate].
  all: destruct (twoFactorEnabled v); [discriminate|].
  all: intros Hlogin; injection Hlogin as _ <- _.
  all: destruct remember as [[|]|]; repeat split; discriminate.
Qed.

Lemma login_session_lifetime_witness :
  exists s c1,
    simulateLogin {| cred_email := JString "bob@example.com";
                     cred_password := JString "secret1"; rememberMe := Some true |}
      (simulator_with [alice; bob]) = (Normal (success_with bob s), c1)
    /\ expiresAt s
       = clock (rt (simulator_with [alice; bob]))
               (3 + ticks (rt (simulator_with [alice; bob])))%nat
         + 30 * 24 * 60 * 60 * 1000.
Proof.
  eexists. eexists. split; [vm_compute; reflexivity|].
  refine (proj1 (login_session_lifetime (simulator_with [alice; bob]) _
                   {| cred_email := JString "bob@example.com";
                      cred_password := JString "secret1"; rememberMe := Some true |}
                   bob _ _)).
  vm_compute. reflexivity.
Defined.

(** X11. No operation consults the configuration or the running flag: with
    any other feature toggles, limits and flag (two-factor switched off, the
    simulator stopped), login, 2FA, OAuth callback, logout and session check
    return what they return otherwise. *)
Theorem configuration_is_not_consulted (c : Cfg) (cfg : AuthFlowConfig) (running : bool) :
  (forall creds,
     fst (simulateLogin creds (reconfigured cfg running c)) = fst (simulateLogin creds c))
  /\ (forall userId cd,
        fst (simulate2FA userId cd (reconfigured cfg running c))
        = fst (simulate2FA userId cd c))
  /\ (forall callback,
        fst (simulateOAuthCallback callback (reconfigured cfg running c))
        = fst (simulateOAuthCallback callback c))
  /\ (forall sessionId,
        fst (simulateLogout sessionId (reconfigured cfg running c))
        = fst (simulateLogout sessionId c))
  /\ (forall sessionId,
        fst (checkSession sessionId (reconfigured cfg running c))
        = fst (checkSession sessionId c)).
Proof.
  repeat apply conj.
  - intros [e [| |pw] remember]; unfold simulateLogin; rewrite !(bind_run _ _ _ _ _ (delay_run _)).
    all: unfold reconfigured; run_from c.
    all: destruct (find _ _) as [u|];
      try (destruct (6 <=? Z.of_nat (String.length pw)); cbv beta iota delta [negb];
           try destruct (twoFactorEnabled u)).
    all: reflexivity.
  - intros userId cd. unfold simulate2FA. rewrite !(bind_run _ _ _ _ _ (delay_run _)).
    unfold reconfigured. run_from c.
    all: destruct (find _ _) as [u|];
      [destruct (match_digits 6 _); cbv beta iota delta [negb]|].
    all: reflexivity.
  - intros callback. unfold simulateOAuthCallback. rewrite !(bind_run _ _ _ _ _ (delay_run _)).
    unfold reconfigured. run_from c.
    all: destruct (find _ _) as [u|]; settle_names; reflexivity.
  - intros sessionId. unfold simulateLogout. rewrite !(bind_run _ _ _ _ _ (delay_run _)).
    unfold reconfigured. run_from c.
    all: destruct (findIndex _ _ =? -1); reflexivity.
  - intros sessionId. unfold checkSession. rewrite !(bind_run _ _ _ _ _ (delay_run _)).
    unfold reconfigured. run_from c.
    all: destruct (find _ (load sa ls)) as [s|];
      [destruct (_ <? _); [|destruct (find _ _) as [u|]]|].
    all: reflexivity.
Qed.

(** ** Logging *)

Ltac show_logged :=
  unfold logged, logging_on; exec;
  first
    [ exists []; split; [rewrite app_nil_r; reflexivity | rewrite app_nil_r; reflexivity]
    | eexists; split;
      [ rewrite ?load_store_eq, <- ?app_assoc; cbn [Datatypes.app]; reflexivity
      | rewrite <- ?app_assoc, ?app_nil_r; reflexivity ] ].

(** X12. The console follows the event log: with logging on, login, 2FA,
    OAuth callback, logout and session check make exactly one [console.log]
    call for each event they append, in the same order, whose first argument
    names the event's type and outcome and whose second is the event's data
    object; with logging off or unset they make none. *)
Theorem console_follows_the_event_log (c : Cfg) :
  (forall creds,
     match simulateLogin creds c with
     | (Normal _, c') => exists es, logged c c' es
     | (Throw _, c') => c' = c
     end)
  /\ (forall userId cd, exists es, logged c (snd (simulate2FA userId cd c)) es)
  /\ (forall callback, exists es, logged c (snd (simulateOAuthCallback callback c)) es)
  /\ (forall sessionId, exists es, logged c (snd (simulateLogout sessionId c)) es)
  /\ (forall sessionId, exists es, logged c (snd (checkSession sessionId c)) es).
Proof.
  repeat apply conj.
  - intros [e [| |pw] remember]; unfold simulateLogin; skip_delay; run_from c.
    all: destruct (find _ _) as [u|]; try reflexivity.
    all: try (destruct (6 <=? Z.of_nat (String.length pw)); cbv beta iota delta [negb];
              try destruct (twoFactorEnabled u)).
    all: show_logged.
  - intros userId cd. unfold simulate2FA. skip_delay. run_from c.
    all: destruct (find _ _) as [u|];
      [destruct (match_digits 6 _); cbv beta iota delta [negb]|].
    all: show_logged.
  - intros callback. unfold simulateOAuthCallback. skip_delay. run_from c.
    all: destruct (find _ _) as [u|]; settle_names; show_logged.
  - intros sessionId. unfold simulateLogout. skip_delay. run_from c.
    all: destruct (findIndex _ _ =? -1); show_logged.
  - intros sessionId. unfold checkSession. skip_delay. run_from c.
    all: destruct (find _ (load sa ls)) as [s|];
      [destruct (_ <? _); [|destruct (find _ _) as [u|]]|].
    all: show_logged.
Qed.

(** ** Arrays shared with the caller *)

Lemma construct_with_mock_users (o : SimulatorOptions) (r : Runtime) (l : loc) :
  mockUsers o = Some l ->
  exists c,
    new_AuthFlowSimulator o r = (Normal tt, c)
    /\ users (state (this c)) = l
    /\ userArrays (rt c) = userArrays r.
Proof.
  destruct o as [oc om ol od]. cbn [mockUsers]. intros ->.
  destruct r as [ua sa ea nl en dr ck tk co].
  eexists. split; [exec; reflexivity|]. split; reflexivity.
Qed.

Lemma oauth_pushes_a_new_user (c : Cfg) (callback : OAuthCallback) :
  find (fun user => strict_eq (user_email user)
                      (JString ("oauth-" +:+ provider callback +:+ "@example.com")))
       (usersOf c) = None ->
  exists u s c',
    simulateOAuthCallback callback c = (Normal (success_with u s), c')
    /\ usersAt (users (state (this c))) c' = (usersOf c ++ [u])%list.
Proof.
  unfold simulateOAuthCallback. skip_delay. run_from c.
  all: intros Hnone; rewrite Hnone; settle_names.
  all: eexists; eexists; eexists; split; [reflexivity | exec; apply load_store_eq].
Qed.

(** X13. A simulator built with [mockUsers] works on the caller's array,
    not on a copy: its directory is that array, and the user an OAuth
    callback creates is pushed onto it. *)
Theorem simulator_works_on_the_callers_array (o : SimulatorOptions) (r : Runtime)
    (l : loc) (callback : OAuthCallback) :
  mockUsers o = Some l ->
  find (fun user => strict_eq (user_email user)
                      (JString ("oauth-" +:+ provider callback +:+ "@example.com")))
       (load (userArrays r) l) = None ->
  exists c u s c',
    new_AuthFlowSimulator o r = (Normal tt, c)
    /\ users (state (this c)) = l
    /\ userArrays (rt c) = userArrays r
    /\ simulateOAuthCallback callback c = (Normal (success_with u s), c')
    /\ usersAt l c' = (load (userArrays r) l ++ [u])%list.
Proof.
  intros Hmock Hnone.
  destruct (construct_with_mock_users o r l Hmock) as (c & Hnew & Href & Harr).
  assert (Hdir : usersOf c = load (userArrays r) l).
  { unfold usersOf, usersAt. now rewrite Href, Harr. }
  rewrite <- Hdir in Hnone.
  destruct (oauth_pushes_a_new_user c callback Hnone) as (u & s & c' & Hrun & Hpush).
  exists c, u, s, c'. rewrite Href, Hdir in Hpush. auto.
Qed.

Lemma simulator_works_on_the_callers_array_witness :
  exists c u s c',
    new_AuthFlowSimulator
      {| opt_config := None; mockUsers := Some O; enableLogging := Some false;
         delayMs := Some 0 |} (sample_runtime [alice; bob]) = (Normal tt, c)
    /\ users (state (this c)) = O
    /\ userArrays (rt c) = userArrays (sample_runtime [alice; bob])
    /\ simulateOAuthCallback {| cb_code := "c"; cb_state := "s"; provider := "github" |} c
       = (Normal (success_with u s), c')
    /\ usersAt O c' = (load (userArrays (sample_runtime [alice; bob])) O ++ [u])%list.
Proof.
  apply (simulator_works_on_the_callers_array
           {| opt_config := None; mockUsers := Some O; enableLogging := Some false;
              delayMs := Some 0 |} (sample_runtime [alice; bob]) O
           {| cb_code := "c"; cb_state := "s"; provider := "github" |}).
  - reflexivity.
  - vm_compute. reflexivity.
Defined.

(** X14. [getEvents] returns a new array with the events in order: what a
    caller pushes onto it shows in that array only, and the simulator's log
    is as before. *)
Theorem getEvents_returns_a_copy (c : Cfg) (e : AuthEvent) :
  refs_allocated c ->
  exists l c1 c2,
    getEvents c = (Normal l, c1)
    /\ l <> events (state (this c))
    /\ this c1 = this c
    /\ eventsAt l c1 = eventsOf c
    /\ external_push_event l e c1 = (Normal tt, c2)
    /\ eventsAt l c2 = (eventsOf c ++ [e])%list
    /\ eventsOf c2 = eventsOf c.
Proof.
  unfold refs_allocated. run_from c.
  all: intros (_ & _ & Hlt).
  all: assert (Hne : nl <> le) by lia.
  all: eexists; eexists; eexists; split; [reflexivity|].
  all: split; [exact Hne|]; split; [reflexivity|].
  all: split; [exec; apply load_store_eq|].
  all: split; [reflexivity|].
  all: split; [exec; rewrite !load_store_eq; reflexivity|].
  all: exec; rewrite !load_store_ne by exact Hne; reflexivity.
Qed.

Lemma getEvents_returns_a_copy_witness :
  exists l c1 c2,
    getEvents (simulator_with [alice; bob]) = (Normal l, c1)
    /\ l <> events (state (this (simulator_with [alice; bob])))
    /\ this c1 = this (simulator_with [alice; bob])
    /\ eventsAt l c1 = eventsOf (simulator_with [alice; bob])
    /\ external_push_event l
         {| ev_type := logout; timestamp := 0; ev_userId := None; ev_sessionId := None;
            ev_data := []; ev_success := true; ev_error := None |} c1 = (Normal tt, c2)
    /\ eventsAt l c2
       = (eventsOf (simulator_with [alice; bob])
          ++ [{| ev_type := logout; timestamp := 0; ev_userId := None;
                 ev_sessionId := None; ev_data := []; ev_success := true;
                 ev_error := None |}])%list
    /\ eventsOf c2 = eventsOf (simulator_with [alice; bob]).
Proof.
  apply getEvents_returns_a_copy. vm_compute. repeat split; lia.
Defined.

(** ** Calls in sequence *)

Lemma appended_trans (c c1 c2 : Cfg) (t1 t2 : list AuthEventType) :
  appended c c1 t1 -> appended c1 c2 t2 -> appended c c2 (t1 ++ t2).
Proof.
  intros (Href1 & es1 & He1 & Ht1) (Href2 & es2 & He2 & Ht2). split.
  - now rewrite Href2.
  - exists (es1 ++ es2)%list. split.
    + rewrite He2, He1, app_assoc. reflexivity.
    + rewrite map_app, Ht1, Ht2. reflexivity.
Qed.

Lemma login_run_appends (creds : LoginCredentials) (c : Cfg) :
  match simulateLogin creds c with
  | (Normal r, c') => appended c c' (login_events r)
  | (Throw _, c') => forall p, cred_password creds <> JString p
  end.
Proof.
  destruct creds as [e [| |pw] remember]; unfold simulateLogin; skip_delay; run_from c.
  all: destruct (find _ _) as [u|]; try (intros p; discriminate).
  all: try (destruct (6 <=? Z.of_nat (String.length pw)); cbv beta iota delta [negb];
            try destruct (twoFactorEnabled u)).
  all: show_appended.
Qed.

(** X15. Logins awaited one after another leave their events in call
    order: when every call returns, there is one result for each attempt
    and the log has grown by the events of the first result, then those of
    the second, and so on; the sequence only stops early at an attempt whose
    password is not a string. *)
Theorem loginEach_appends_in_call_order (attempts : list LoginCredentials) (c : Cfg) :
  match loginEach attempts c with
  | (Normal rs, c') =>
      length rs = length attempts
      /\ appended c c' (concat (map login_events rs))
  | (Throw _, _) =>
      Exists (fun creds => forall p, cred_password creds <> JString p) attempts
  end.
Proof.
  revert c. induction attempts as [|creds rest IH]; intros c.
  - cbn. split; [reflexivity|]. split; [reflexivity|].
    exists []. split; [now rewrite app_nil_r | reflexivity].
  - cbn [loginEach]. unfold bind at 1.
    pose proof (login_run_appends creds c) as Hone.
    destruct (simulateLogin creds c) as [[r|t] c1].
    + unfold bind at 1. specialize (IH c1).
      destruct (loginEach rest c1) as [[rs|t] c2].
      * cbn. destruct IH as (Hlen & Happ). split; [now rewrite Hlen|].
        exact (appended_trans _ _ _ _ _ Hone Happ).
      * now apply Exists_cons_tl.
    + now apply Exists_cons_hd.
Qed.

(** * Properties of the helpers *)

(** ** The matcher against the denotation *)

Lemma append_empty_inv (s1 s2 : string) :
  s1 +:+ s2 = EmptyString -> s1 = EmptyString /\ s2 = EmptyString.
Proof. destruct s1; cbn; [auto | discriminate]. Qed.

Lemma lang_nullable (r : regex) (s : string) :
  lang r s -> s = EmptyString -> nullable r = true.
Proof.
  induction 1; intros Hs; cbn; try reflexivity; try discriminate.
  - apply append_empty_inv in Hs as [-> ->]. now rewrite IHlang1, IHlang2.
  - now rewrite IHlang.
  - rewrite IHlang by assumption. apply orb_true_r.
Qed.

Lemma nullable_lang (r : regex) : nullable r = true -> lang r EmptyString.
Proof.
  induction r; cbn; intros H; try discriminate.
  - constructor.
  - apply andb_true_iff in H as [H1 H2].
    change EmptyString with (EmptyString +:+ EmptyString). constructor; auto.
  - apply orb_true_iff in H as [H|H]; [apply lang_alt_l | apply lang_alt_r]; auto.
  - constructor.
Qed.

Lemma derive_sound (r : regex) (ch : ascii) (s : string) :
  lang (derive ch r) s -> lang r (String ch s).
Proof.
  revert s. induction r; cbn; intros s H.
  - inversion H.
  - inversion H.
  - destruct (p ch) eqn:Hp; inversion H; subst. now constructor.
  - destruct (nullable r1) eqn:Hn.
    + inversion H; subst.
      * match goal with Hs : lang (Seq _ _) _ |- _ => inversion Hs; subst end.
        change (String ch (s1 +:+ s2)) with (String ch s1 +:+ s2). constructor; auto.
      * change (String ch s) with (EmptyString +:+ String ch s).
        constructor; [now apply nullable_lang | auto].
    + inversion H; subst.
      change (String ch (s1 +:+ s2)) with (String ch s1 +:+ s2). constructor; auto.
  - inversion H; subst; [apply lang_alt_l | apply lang_alt_r]; auto.
  - inversion H; subst.
    change (String ch (s1 +:+ s2)) with (String ch s1 +:+ s2).
    apply lang_star_more; auto.
Qed.

Lemma derive_complete (r : regex) (t : string) :
  lang r t -> forall c0 t0, t = String c0 t0 -> lang (derive c0 r) t0.
Proof.
  induction 1 as [ | p ch Hp | r1 r2 s1 s2 H1 IH1 H2 IH2 | r1 r2 s H1 IH1
                 | r1 r2 s H2 IH2 | r | r s1 s2 H1 IH1 H2 IH2 ];
    intros c0 t0 Ht; cbn.
  - discriminate.
  - injection Ht as -> <-. rewrite Hp. constructor.
  - destruct s1 as [|c1 s1].
    + cbn in Ht. rewrite (lang_nullable _ _ H1 eq_refl). apply lang_alt_r. now apply IH2.
    + cbn in Ht. injection Ht as -> <-.
      specialize (IH1 _ _ eq_refl).
      destruct (nullable r1); [apply lang_alt_l|]; now constructor.
  - apply lang_alt_l. now apply IH1.
  - apply lang_alt_r. now apply IH2.
  - discriminate.
  - destruct s1 as [|c1 s1].
    + cbn in Ht. exact (IH2 _ _ Ht).
    + cbn in Ht. injection Ht as -> <-. constructor; [now apply IH1 | assumption].
Qed.

Lemma regex_test_spec (r : regex) (s : string) : regex_test r s = true <-> lang r s.
Proof.
  revert r. induction s as [|ch s IH]; intros r; cbn.
  - split; [apply nullable_lang | intros H; exact (lang_nullable _ _ H eq_refl)].
  - rewrite IH. split; [apply derive_sound | intros H; exact (derive_complete _ _ H _ _ eq_refl)].
Qed.

Lemma lang_seq_inv (r1 r2 : regex) (s : string) :
  lang (Seq r1 r2) s <-> exists s1 s2, s = s1 +:+ s2 /\ lang r1 s1 /\ lang r2 s2.
Proof.
  split.
  - intros H. inversion H; subst. eauto.
  - intros (s1 & s2 & -> & H1 & H2). now constructor.
Qed.

Lemma lang_class_inv (p : ascii -> bool) (s : string) :
  lang (Class p) s <-> exists ch, s = String ch EmptyString /\ p ch = true.
Proof.
  split.
  - intros H. inversion H; subst. eauto.
  - intros (ch & -> & Hp). now constructor.
Qed.

Lemma chars_append (s1 s2 : string) :
  list_ascii_of_string (s1 +:+ s2)
  = (list_ascii_of_string s1 ++ list_ascii_of_string s2)%list.
Proof. induction s1 as [|ch s1 IH]; simpl; [reflexivity | now rewrite IH]. Qed.

Lemma lang_star_class (p : ascii -> bool) (s : string) :
  lang (Star (Class p)) s <-> Forall (fun ch => p ch = true) (list_ascii_of_string s).
Proof.
  split.
  - intros H. remember (Star (Class p)) as r eqn:Hr.
    induction H; try discriminate.
    + constructor.
    + injection Hr as ->. rewrite chars_append. apply Forall_app. split.
      * inversion H; subst. cbn. constructor; [assumption | constructor].
      * now apply IHlang2.
  - induction s as [|ch s IH]; cbn; intros H.
    + constructor.
    + inversion H; subst.
      change (String ch s) with (String ch EmptyString +:+ s).
      apply lang_star_more; [now constructor | now apply IH].
Qed.

Lemma lang_plus_class (p : ascii -> bool) (s : string) :
  lang (Plus (Class p)) s <->
  s <> EmptyString /\ Forall (fun ch => p ch = true) (list_ascii_of_string s).
Proof.
  unfold Plus. rewrite lang_seq_inv. split.
  - intros (s1 & s2 & -> & H1 & H2). apply lang_class_inv in H1 as (ch & -> & Hp).
    apply lang_star_class in H2. cbn. split; [discriminate | now constructor].
  - intros [Hne Hall]. destruct s as [|ch s]; [contradiction|].
    cbn in Hall. inversion Hall; subst.
    exists (String ch EmptyString), s. split; [reflexivity|]. split.
    + now constructor.
    + now apply lang_star_class.
Qed.

(** ** isValidEmail *)

Lemma valid_email_shape (email : string) :
  isValidEmail email = true <->
  exists localPart domain tld,
    email = localPart +:+ "@" +:+ domain +:+ "." +:+ tld
    /\ email_part localPart /\ email_part domain /\ email_part tld.
Proof.
  unfold isValidEmail, emailRegex, email_part. rewrite regex_test_spec. split.
  - intros H.
    apply lang_seq_inv in H as (a & rest1 & -> & Ha & H).
    apply lang_seq_inv in H as (at_ & rest2 & -> & Hat & H).
    apply lang_seq_inv in H as (b & rest3 & -> & Hb & H).
    apply lang_seq_inv in H as (dot & d & -> & Hdot & Hd).
    apply lang_class_inv in Hat as (c1 & -> & Hc1).
    apply lang_class_inv in Hdot as (c2 & -> & Hc2).
    apply Ascii.eqb_eq in Hc1, Hc2. subst c1 c2.
    apply lang_plus_class in Ha, Hb, Hd.
    exists a, b, d. auto.
  - intros (a & b & d & -> & Ha & Hb & Hd).
    apply lang_plus_class in Ha, Hb, Hd.
    repeat (apply lang_seq; try assumption); apply lang_class; reflexivity.
Qed.

(** X16. [isValidEmail] accepts exactly the strings of the form
    [local@domain.tld] in which the three parts are not empty and hold
    neither white space nor [@]; further dots may occur in any part. *)
Theorem isValidEmail_spec (email : string) :
  isValidEmail email = true <->
  exists localPart domain tld,
    email = localPart +:+ "@" +:+ domain +:+ "." +:+ tld
    /\ email_part localPart /\ email_part domain /\ email_part tld.
Proof. exact (valid_email_shape email). Qed.

(** X17. The address under which [simulateOAuthCallback] files a provider's
    user, [oauth-<provider>@example.com], passes [isValidEmail] whenever the
    provider name holds neither white space nor [@]. *)
Theorem oauth_email_is_valid (callback : OAuthCallback) :
  Forall (fun ch => email_char ch = true) (list_ascii_of_string (provider callback)) ->
  isValidEmail ("oauth-" +:+ provider callback +:+ "@example.com") = true.
Proof.
  intros Hall. apply valid_email_shape.
  exists ("oauth-" +:+ provider callback), "example", "com". split; [|split; [|split]].
  - reflexivity.
  - split; [discriminate|]. rewrite chars_append. apply Forall_app. split; [|exact Hall].
    cbn. repeat constructor.
  - split; [discriminate | cbn; repeat constructor].
  - split; [discriminate | cbn; repeat constructor].
Qed.

Lemma oauth_email_is_valid_witness :
  isValidEmail ("oauth-" +:+ "github" +:+ "@example.com") = true.
Proof.
  apply (oauth_email_is_valid {| cb_code := "c"; cb_state := "s"; provider := "github" |}).
  cbn. repeat constructor.
Defined.

(** ** validatePasswordStrength *)

(** X18. [validatePasswordStrength] reports a password valid exactly when it
    has at least 8 characters, an upper-case letter, a lower-case letter, a
    digit and a special character; valid means an empty error list, and the
    list holds one message for each check that fails. *)
Theorem validatePasswordStrength_spec (password : string) :
  (isValid (validatePasswordStrength password) = true <->
   8 <= Z.of_nat (String.length password)
   /\ test_class (in_range 65 90) password = true
   /\ test_class (in_range 97 122) password = true
   /\ test_class is_digit password = true
   /\ test_class is_special password = true)
  /\ (isValid (validatePasswordStrength password) = true <->
      errors (validatePasswordStrength password) = [])
  /\ length (errors (validatePasswordStrength password))
     = length (List.filter negb
                 [negb (Z.of_nat (String.length password) <? 8);
                  test_class (in_range 65 90) password;
                  test_class (in_range 97 122) password;
                  test_class is_digit password;
                  test_class is_special password]).
Proof.
  unfold validatePasswordStrength. rewrite <- Z.ltb_ge.
  destruct (Z.of_nat (String.length password) <? 8),
    (test_class (in_range 65 90) password), (test_class (in_range 97 122) password),
    (test_class is_digit password), (test_class is_special password); cbn.
  all: repeat split; try reflexivity; try discriminate; try tauto.
  all: try (intros (H1 & H2 & H3 & H4 & H5); discriminate).
Qed.

Lemma strong_password_is_long (password : string) :
  isValid (validatePasswordStrength password) = true ->
  (6 <=? Z.of_nat (String.length password)) = true.
Proof.
  unfold validatePasswordStrength.
  destruct (Z.of_nat (String.length password) <? 8) eqn:Hlen,
    (test_class (in_range 65 90) password), (test_class (in_range 97 122) password),
    (test_class is_digit password), (test_class is_special password); cbn.
  all: try discriminate.
  intros _. apply Z.ltb_ge in Hlen. apply Z.leb_le. lia.
Qed.

(** X19. A password that [validatePasswordStrength] reports valid is never
    refused by [simulateLogin]: for the user its email resolves to, the login
    returns that user, with a session or with the two-factor challenge. *)
Theorem strong_password_is_never_refused (c : Cfg) (u : User) (password : string)
    (remember : option bool) :
  resolved_by_email c u ->
  isValid (validatePasswordStrength password) = true ->
  exists r c',
    simulateLogin {| cred_email := JString (user_email u);
                     cred_password := JString password;
                     rememberMe := remember |} c = (Normal r, c')
    /\ res_user r = Some u
    /\ (success r = true \/ requires2FA r = Some true).
Proof.
  intros Hfind Hstrong. apply strong_password_is_long in Hstrong.
  revert Hfind Hstrong. unfold resolved_by_email, simulateLogin. skip_delay. run_from c.
  all: intros Hfind Hlen; rewrite Hfind, Hlen; cbv beta iota delta [negb].
  all: destruct (twoFactorEnabled u); eexists; eexists.
  all: split; [reflexivity|]; split; [reflexivity|]; cbn; auto.
Qed.

Lemma strong_password_is_never_refused_witness :
  exists r c',
    simulateLogin {| cred_email := JString (user_email alice);
                     cred_password := JString "Secret#123";
                     rememberMe := None |} (simulator_with [alice; bob]) = (Normal r, c')
    /\ res_user r = Some alice
    /\ (success r = true \/ requires2FA r = Some true).
Proof.
  apply strong_password_is_never_refused.
  - vm_compute. reflexivity.
  - vm_compute. reflexivity.
Defined.

(** ** isEmpty *)

Lemma trimStart_all_space (l : list ascii) :
  Forall (fun ch => is_space ch = true) (trimStart l) <->
  Forall (fun ch => is_space ch = true) l.
Proof.
  induction l as [|ch l IH]; cbn; [tauto|].
  destruct (is_space ch) eqn:Hch; [|tauto].
  rewrite IH. split; [now constructor | intros H; now inversion H].
Qed.

Lemma trimStart_nil (l : list ascii) :
  trimStart l = [] <-> Forall (fun ch => is_space ch = true) l.
Proof.
  induction l as [|ch l IH]; cbn; [split; [constructor | reflexivity]|].
  destruct (is_space ch) eqn:Hch.
  - rewrite IH. split; [now constructor | intros H; now inversion H].
  - split; [discriminate | intros H; inversion H; congruence].
Qed.

Lemma Forall_rev_rev {A} (P : A -> Prop) (l : list A) :
  Forall P (List.rev l) <-> Forall P l.
Proof.
  rewrite !List.Forall_forall. split; intros H x Hx; apply H.
  - now apply in_rev in Hx.
  - now apply in_rev.
Qed.

Lemma trim_empty (s : string) :
  trim s = EmptyString <-> Forall (fun ch => is_space ch = true) (list_ascii_of_string s).
Proof.
  unfold trim. rewrite <- trimStart_all_space.
  set (l := trimStart (list_ascii_of_string s)).
  rewrite <- (Forall_rev_rev _ l), <- trimStart_nil. split.
  - intros H. apply (f_equal list_ascii_of_string) in H.
    rewrite list_ascii_of_string_of_list_ascii in H. cbn in H.
    apply (f_equal (@List.rev ascii)) in H. now rewrite rev_involutive in H.
  - intros ->. reflexivity.
Qed.

(** X20. [isEmpty] is true exactly for [null], for [undefined], for a
    string made of white space only (the empty string included), for an
    array without elements and for an object without keys; numbers,
    booleans and functions are never empty. *)
Theorem isEmpty_spec (value : unknown) :
  isEmpty value = true <->
  value = UNull \/ value = UUndefined
  \/ (exists s, value = UString s
                /\ Forall (fun ch => is_space ch = true) (list_ascii_of_string s))
  \/ value = UArray [] \/ value = UObject [].
Proof.
  destruct value as [| |s|elements|keys|]; cbn.
  - tauto.
  - tauto.
  - rewrite String.eqb_eq, trim_empty. split.
    + intros H. right. right. left. eauto.
    + intros [H|[H|[(t & Ht & Hall)|[H|H]]]]; try discriminate.
      now injection Ht as ->.
  - destruct elements; cbn; split; auto; try discriminate.
    intros [H|[H|[(t & Ht & _)|[H|H]]]]; discriminate.
  - destruct keys; cbn; split; auto; try discriminate.
    intros [H|[H|[(t & Ht & _)|[H|H]]]]; discriminate.
  - split; [discriminate|].
    intros [H|[H|[(t & Ht & _)|[H|H]]]]; discriminate.
Qed.
